(** * Sports-odds backend: bookmaker registry, odds-table formatter and
      snapshot-row aggregation

    A shallow embedding of [bookmaker.py], [routes_odds_table.py] and the
    data-shaping parts of [main.py], followed by the properties the
    specification states about them.

    Conventions of the embedding.
    - A Python [str] is a [string] (its UTF-8 bytes).  [str.strip] and
      [str.lower] are modelled on the ASCII range: bytes above 127 are
      neither whitespace nor cased.  Every key of the static tables is ASCII.
    - [Optional[str]] is [option string]; Python truthiness of such a value
      is "present and not empty".
    - A Python [dict] used as a constant table is a [gmap]; a [dict] whose
      insertion order is observed is an association list.
    - A Python [float] is a binary64 [float] (primitive floats), so sums and
      quotients round exactly as they do in CPython; [float(d)] of a
      [Decimal] is the correctly rounded value.  [sum] adds left to right,
      as CPython up to 3.11 does; [py_sum_compensated] is the sum of later
      versions.  Exact arithmetic, where a statement needs it, is in [Q].
    - An exception is a value of [exn]; code that may raise lives in the
      [result] monad, and [try ... except Exception] is [try_except].
    - The collaborators are inputs: [odds_table] is a function of the
      upstream HTTP response, a handler of [main.py] is a function of the
      rows its query fetched; for the history handler, whose two queries
      are compared, the stored table itself is the input. *)

From Stdlib Require Import ZArith QArith Floats Uint63 Ascii String.
From stdpp Require Import gmap strings list fin_maps sorting.

Close Scope Q_scope.
Open Scope string_scope.

(* ===================================================================== *)
(** ** Python strings                                                     *)
(* ===================================================================== *)

Module PyStr.

(** [str.isspace] on one character of the ASCII range: TAB, LF, VT, FF, CR,
    the four separators FS, GS, RS, US, and the space. *)
Definition is_space (a : ascii) : bool :=
  let n := N_of_ascii a in
  ((9 <=? n) && (n <=? 13) || (28 <=? n) && (n <=? 32))%N.

Definition is_upper (a : ascii) : bool :=
  let n := N_of_ascii a in ((65 <=? n) && (n <=? 90))%N.

Definition lower_char (a : ascii) : ascii :=
  if is_upper a then ascii_of_N (N_of_ascii a + 32) else a.

(** [s.lower()] *)
Fixpoint lower (s : string) : string :=
  match s with
  | EmptyString => EmptyString
  | String a s' => String (lower_char a) (lower s')
  end.

Fixpoint lstrip (s : string) : string :=
  match s with
  | EmptyString => EmptyString
  | String a s' => if is_space a then lstrip s' else s
  end.

Fixpoint rstrip (s : string) : string :=
  match s with
  | EmptyString => EmptyString
  | String a s' =>
      match rstrip s' with
      | EmptyString => if is_space a then EmptyString else String a EmptyString
      | r => String a r
      end
  end.

(** [s.strip()] *)
Definition strip (s : string) : string := rstrip (lstrip s).

(** A string that does not start with whitespace, as [lstrip] returns. *)
Definition clean_head (s : string) : Prop :=
  match s with
  | EmptyString => True
  | String a _ => is_space a = false
  end.

(** Truthiness of a [str]: [bool(s)]. *)
Definition nonempty (s : string) : bool :=
  match s with EmptyString => false | String _ _ => true end.

(** Truthiness of an [Optional[str]]. *)
Definition truthy (o : option string) : bool :=
  match o with Some s => nonempty s | None => false end.

(** [a or b] where [a : Optional[str]] and [b : str]. *)
Definition or_str (a : option string) (b : string) : string :=
  match a with
  | Some s => if nonempty s then s else b
  | None => b
  end.

(** [sep.join(parts)] *)
Fixpoint join (sep : string) (parts : list string) : string :=
  match parts with
  | [] => ""
  | [p] => p
  | p :: rest => p ++ sep ++ join sep rest
  end.

(** [needle in haystack] for two strings. *)
Fixpoint is_prefix (p s : string) : bool :=
  match p, s with
  | EmptyString, _ => true
  | String a p', String b s' => if Ascii.eqb a b then is_prefix p' s' else false
  | String _ _, EmptyString => false
  end.

Fixpoint contains (needle s : string) : bool :=
  is_prefix needle s ||
  match s with
  | EmptyString => false
  | String _ s' => contains needle s'
  end.

(** Two strings compare as Python orders them, by code point; on UTF-8
    bytes this is the byte-wise lexicographic order [String.leb]. *)
Definition leb : string -> string -> bool := String.leb.

End PyStr.

(* ===================================================================== *)
(** ** bookmaker.py                                                       *)
(* ===================================================================== *)

Module Bookmaker.

Definition BOOKMAKER_URLS : gmap string string :=
  list_to_map
    [ ("betright",      "https://www.betright.com.au/");
      ("betfair_ex_au", "https://www.betfair.com.au/exchange/");
      ("betr",          "https://www.betr.com.au/");
      ("boombet",       "https://www.boombet.com.au/");
      ("ladbrokes",     "https://www.ladbrokes.com.au/");
      ("neds",          "https://www.neds.com.au/");
      ("playup",        "https://www.playup.com.au/");
      ("pointsbetau",   "https://pointsbet.com.au/");
      ("sportsbet",     "https://www.sportsbet.com.au/");
      ("tab",           "https://www.tab.com.au/");
      ("tabtouch",      "https://www.tabtouch.com.au/");
      ("unibet",        "https://www.unibet.com.au/") ].

Definition ALIASES_items : list (string * string) :=
  [ ("bet_right",    "betright");
    ("betfair",      "betfair_ex_au");
    ("pointsbet",    "pointsbetau");
    ("sportsbet_au", "sportsbet");
    ("unibet_au",    "unibet");
    ("tab_au",       "tab") ].

Definition ALIASES : gmap string string := list_to_map ALIASES_items.

Definition CANONICAL_NAME : gmap string string :=
  list_to_map
    [ ("betfair_ex_au", "Betfair");
      ("pointsbetau",   "PointsBet (AU)");
      ("sportsbet",     "SportsBet");
      ("tab",           "TAB") ].

(** [normalize_key(key)]:
<<
    if not key: return ""
    k = key.strip().lower()
    return ALIASES.get(k, k)
>> *)
Definition normalize_key (key : option string) : string :=
  if negb (PyStr.truthy key) then ""
  else
    let k := PyStr.lower (PyStr.strip (default "" key)) in
    default k (ALIASES !! k).

(** The dict [{"key": ..., "name": ..., "url": ...}] returned by
    [get_bookmaker_meta]. *)
Record Meta := mkMeta {
  meta_key  : string;
  meta_name : string;
  meta_url  : option string
}.

(** [get_bookmaker_meta(key, title)]:
<<
    nk = normalize_key(key)
    url = BOOKMAKER_URLS.get(nk)
    name = CANONICAL_NAME.get(nk) or title or (key or "")
    return {"key": nk or (key or ""), "name": name, "url": url}
>> *)
Definition get_bookmaker_meta (key title : option string) : Meta :=
  let nk := normalize_key key in
  let url := BOOKMAKER_URLS !! nk in
  let name :=
    PyStr.or_str (CANONICAL_NAME !! nk)
      (PyStr.or_str title (PyStr.or_str key "")) in
  {| meta_key := PyStr.or_str (Some nk) (PyStr.or_str key "");
     meta_name := name;
     meta_url := url |}.

(** The display name as the specification words it: the canonical name of
    the normalized key when known, otherwise the fallback title, otherwise
    the raw key, otherwise the empty string. A title or key that is [None]
    or empty counts as not given. *)
Definition spec_display_name (key title : option string) : string :=
  match CANONICAL_NAME !! normalize_key key with
  | Some c => c
  | None =>
      if PyStr.truthy title then default "" title
      else if PyStr.truthy key then default "" key
      else ""
  end.

End Bookmaker.

(* ===================================================================== *)
(** ** Python values, exceptions and JSON                                 *)
(* ===================================================================== *)

Module Py.

(** The exception classes the modelled code can raise; all of them derive
    from [Exception]. *)
Inductive exn : Type :=
  | AttributeError
  | TypeError
  | KeyError
  | ValueError.

Inductive result (A : Type) : Type :=
  | Ok (a : A)
  | Raise (e : exn).
Arguments Ok {A} a.
Arguments Raise {A} e.

Definition bind {A B} (r : result A) (k : A -> result B) : result B :=
  match r with
  | Ok a => k a
  | Raise e => Raise e
  end.

(** [try: body  except Exception: handler] *)
Definition try_except {A} (body : result A) (handler : result A) : result A :=
  match body with
  | Ok a => Ok a
  | Raise _ => handler
  end.

(** A loop body run over a list, collecting the results in order and
    stopping at the first exception. *)
Fixpoint traverse {A B} (f : A -> result B) (l : list A) : result (list B) :=
  match l with
  | [] => Ok []
  | x :: rest =>
      bind (f x) (fun y => bind (traverse f rest) (fun ys => Ok (y :: ys)))
  end.

(** A number as [json.loads] produces it: [int] or [float]. *)
Inductive number : Type :=
  | NInt (z : Z)
  | NFloat (f : float).

(** A parsed JSON document, i.e. the Python value [json.loads] returns.
    [JObj] lists the items of a [dict] in insertion order; its keys are
    distinct. [JNull] is [None]. *)
#[local] Unset Elimination Schemes.
Inductive json : Type :=
  | JNull
  | JBool (b : bool)
  | JNum (n : number)
  | JStr (s : string)
  | JArr (items : list json)
  | JObj (members : list (string * json)).
#[local] Set Elimination Schemes.

Fixpoint assoc (k : string) (members : list (string * json)) : option json :=
  match members with
  | [] => None
  | (k', v) :: rest => if String.eqb k k' then Some v else assoc k rest
  end.

(** [v.get(k, dflt)]: only a [dict] has the method. *)
Definition get (v : json) (k : string) (dflt : json) : result json :=
  match v with
  | JObj members => Ok (default dflt (assoc k members))
  | _ => Raise AttributeError
  end.

Fixpoint chars (s : string) : list json :=
  match s with
  | EmptyString => []
  | String a s' => JStr (String a EmptyString) :: chars s'
  end.

(** [for x in v]: a list yields its elements, a dict its keys, a string
    its characters; nothing else is iterable. *)
Definition iter (v : json) : result (list json) :=
  match v with
  | JArr items => Ok items
  | JObj members => Ok (map (fun kv => JStr (fst kv)) members)
  | JStr s => Ok (chars s)
  | _ => Raise TypeError
  end.

(** [v == k] for a string [k]. *)
Definition eq_str (v : json) (k : string) : bool :=
  match v with
  | JStr s => String.eqb s k
  | _ => false
  end.

(** [k in v] for a string [k]: key membership in a dict, element
    membership in a list, substring test in a string. *)
Definition contains (k : string) (v : json) : result bool :=
  match v with
  | JObj members => Ok (bool_decide (is_Some (assoc k members)))
  | JArr items => Ok (existsb (fun x => eq_str x k) items)
  | JStr s => Ok (PyStr.contains k s)
  | _ => Raise TypeError
  end.

(** [v[k]] for a string [k]. *)
Definition getitem (v : json) (k : string) : result json :=
  match v with
  | JObj members =>
      match assoc k members with
      | Some x => Ok x
      | None => Raise KeyError
      end
  | _ => Raise TypeError
  end.

End Py.

Notation "'let*' x ':=' c1 'in' c2" := (Py.bind c1 (fun x => c2))
  (at level 10, x name, c1 at level 100, c2 at level 200).

(* ===================================================================== *)
(** ** JSON encoding of a response body                                   *)
(* ===================================================================== *)

Module JsonEnc.
Import Py.

(** The double quote and the backslash. *)
Definition dquote : string := String (ascii_of_N 34) EmptyString.
Definition backslash : string := String (ascii_of_N 92) EmptyString.

Definition hex_digit (n : N) : ascii :=
  if (n <? 10)%N then ascii_of_N (48 + n) else ascii_of_N (87 + n).

(** One character of a string literal, as [json.dumps(.., ensure_ascii=False)]
    writes it: the quote, the backslash and the control characters are
    escaped, everything else is copied. *)
Definition escape_char (a : ascii) : string :=
  let n := N_of_ascii a in
  if (n =? 34)%N then backslash ++ dquote
  else if (n =? 92)%N then backslash ++ backslash
  else if (n =? 10)%N then backslash ++ "n"
  else if (n =? 13)%N then backslash ++ "r"
  else if (n =? 9)%N then backslash ++ "t"
  else if (n =? 8)%N then backslash ++ "b"
  else if (n =? 12)%N then backslash ++ "f"
  else if (n <? 32)%N then
    backslash ++ "u00" ++
    String (hex_digit (n / 16)) (String (hex_digit (n mod 16)) EmptyString)
  else String a EmptyString.

Fixpoint escape (s : string) : string :=
  match s with
  | EmptyString => EmptyString
  | String a s' => escape_char a ++ escape s'
  end.

Definition string_literal (s : string) : string := dquote ++ escape s ++ dquote.

Section Dumps.
(** [repr] of a number or of a container ([list], [dict]); the model
    leaves its text open and is parametric in it. *)
Variable py_repr : json -> string.

(** [str(v)], the conversion an f-string applies to [{v}]. *)
Definition py_str (v : json) : string :=
  match v with
  | JStr s => s
  | JNull => "None"
  | JBool true => "True"
  | JBool false => "False"
  | _ => py_repr v
  end.

(** [json.dumps(v, ensure_ascii=False, allow_nan=False, indent=None,
    separators=(",", ":"))], the rendering [JSONResponse] applies to its
    content. *)
Fixpoint dumps (v : json) : string :=
  match v with
  | JNull => "null"
  | JBool true => "true"
  | JBool false => "false"
  | JNum n => py_repr (JNum n)
  | JStr s => string_literal s
  | JArr items => "[" ++ PyStr.join "," (List.map dumps items) ++ "]"
  | JObj members =>
      "{" ++
      PyStr.join ","
        (List.map (fun kv => match kv with
                             | (k, x) => string_literal k ++ ":" ++ dumps x
                             end) members) ++
      "}"
  end.
End Dumps.

End JsonEnc.

(* ===================================================================== *)
(** ** Stable sorting                                                     *)
(* ===================================================================== *)

Module PySort.

(** [l.sort(key=f)] and SQL's [ORDER BY] are stable sorts by a total
    preorder [le]. Python's sort is stable and compares keys with [<]
    only, which determines its result; it is written here as the stable
    insertion sort. *)
Section Sort.
Context {A : Type} (le : A -> A -> bool).

Fixpoint insert_by (x : A) (l : list A) : list A :=
  match l with
  | [] => [x]
  | y :: rest =>
      if le x y then x :: y :: rest else y :: insert_by x rest
  end.

Fixpoint sort_by (l : list A) : list A :=
  match l with
  | [] => []
  | x :: rest => insert_by x (sort_by rest)
  end.
End Sort.

(** The order a boolean comparison stands for. *)
Definition le_rel {A : Type} (le : A -> A -> bool) (a b : A) : Prop :=
  le a b = true.

(** [l.sort(key=f)] for keys of type [K] ordered by [leK]. *)
Definition sort_by_key {A K : Type} (leK : K -> K -> bool) (f : A -> K)
    (l : list A) : list A :=
  sort_by (fun a b => leK (f a) (f b)) l.

End PySort.

(* ===================================================================== *)
(** ** routes_odds_table.py                                               *)
(* ===================================================================== *)

Module OddsTable.
Import Py.

(** [_pick_market(markets, key)]:
<<
    for m in markets:
        if m.get("key") == key:
            return m
    return None
>> *)
Fixpoint pick_loop (ms : list json) (key : string) : result json :=
  match ms with
  | [] => Ok JNull
  | m :: rest =>
      let* k := get m "key" JNull in
      if eq_str k key then Ok m else pick_loop rest key
  end.

Definition _pick_market (markets : json) (key : string) : result json :=
  let* ms := iter markets in pick_loop ms key.

Section Formatting.
Variable py_repr : json -> string.
Let str := JsonEnc.py_str py_repr.

(** The generator of [_format_h2h]:
    [f"{o['name']}: {o['price']}" for o in outs
       if "name" in o and "price" in o] *)
Fixpoint h2h_parts (outs : list json) : result (list string) :=
  match outs with
  | [] => Ok []
  | o :: rest =>
      let* has_name := contains "name" o in
      let* keep :=
        (if has_name then contains "price" o else Ok false) in
      if keep then
        let* name := getitem o "name" in
        let* price := getitem o "price" in
        let* tl := h2h_parts rest in
        Ok ((str name ++ ": " ++ str price) :: tl)
      else h2h_parts rest
  end.

(** [all(k in o for k in ("name", "point", "price"))] *)
Definition has_name_point_price (o : json) : result bool :=
  let* has_name := contains "name" o in
  if has_name then
    let* has_point := contains "point" o in
    if has_point then contains "price" o else Ok false
  else Ok false.

(** The generator shared in shape by [_format_spreads] and
    [_format_totals]; [render] is the f-string. *)
Fixpoint npp_parts (render : string -> string -> string -> string)
    (outs : list json) : result (list string) :=
  match outs with
  | [] => Ok []
  | o :: rest =>
      let* keep := has_name_point_price o in
      if keep then
        let* name := getitem o "name" in
        let* point := getitem o "point" in
        let* price := getitem o "price" in
        let* tl := npp_parts render rest in
        Ok (render (str name) (str point) (str price) :: tl)
      else npp_parts render rest
  end.

(** The body of the [try] block of [_format_h2h]. *)
Definition format_h2h_body (market : json) : result string :=
  let* outs := get market "outcomes" (JArr []) in
  let* os := iter outs in
  let* parts := h2h_parts os in
  Ok (PyStr.join " / " parts).

(** [_format_h2h(market)]:
<<
    try:
        outs = market.get("outcomes", [])
        return " / ".join(f"{o['name']}: {o['price']}"
                          for o in outs if "name" in o and "price" in o)
    except Exception:
        return ""
>> *)
Definition _format_h2h (market : json) : result string :=
  try_except (format_h2h_body market) (Ok "").

Definition format_npp_body (render : string -> string -> string -> string)
    (market : json) : result string :=
  let* outs := get market "outcomes" (JArr []) in
  let* os := iter outs in
  let* parts := npp_parts render os in
  Ok (PyStr.join " / " parts).

(** [f"{o['name']}({o['point']}): {o['price']}"] *)
Definition render_spread (name point price : string) : string :=
  name ++ "(" ++ point ++ "): " ++ price.

(** [f"{o['name']} {o['point']}: {o['price']}"] *)
Definition render_total (name point price : string) : string :=
  name ++ " " ++ point ++ ": " ++ price.

(** [_format_spreads(market)], same [try]/[except] as [_format_h2h]. *)
Definition _format_spreads (market : json) : result string :=
  try_except (format_npp_body render_spread market) (Ok "").

(** [_format_totals(market)], same [try]/[except] as [_format_h2h]. *)
Definition _format_totals (market : json) : result string :=
  try_except (format_npp_body render_total market) (Ok "").

(** *** The upstream document

    The handler reads the provider's response through [r.status_code],
    [r.text] and [r.json()]. At the event and bookmaker level the fields
    it reads are strings or missing ([None] below is a missing key); a
    bookmaker's [markets] value is an arbitrary JSON value. *)
Record UpstreamBookmaker := mkUpstreamBookmaker {
  bm_key     : option string;
  bm_title   : option string;
  bm_markets : option json
}.

Record UpstreamEvent := mkUpstreamEvent {
  ev_id            : option string;
  ev_home_team     : option string;
  ev_away_team     : option string;
  ev_commence_time : option string;
  ev_bookmakers    : option (list UpstreamBookmaker)
}.

Record UpstreamResponse := mkUpstreamResponse {
  up_status_code : Z;
  up_text        : string;
  up_json        : result (list UpstreamEvent)
}.

(** One row dict of the table. *)
Record TableRow := mkTableRow {
  row_bookmaker     : option string;
  row_bookmaker_url : option string;
  row_match         : string;
  row_start         : string;
  row_h2h           : string;
  row_spreads       : string;
  row_totals        : string
}.

(** One element of [matches]. *)
Record MatchGroup := mkMatchGroup {
  m_id    : option string;
  m_match : string;
  m_start : string;
  m_rows  : list TableRow
}.

(** The content handed to [JSONResponse]: [{"error": ...}] or
    [{"columns": ..., "matches": ...}]. *)
Inductive Content : Type :=
  | ErrorContent (error : string)
  | TableContent (columns : list string) (matches : list MatchGroup).

Record JSONResponse := mkJSONResponse {
  content     : Content;
  status_code : Z
}.

Definition columns : list string :=
  ["bookmaker"; "match"; "h2h"; "spreads"; "totals"; "start"; "bookmaker_url"].

(** The sort key [lambda r: (r["bookmaker"] or "").lower()]. *)
Definition row_sort_key (r : TableRow) : string :=
  PyStr.lower (PyStr.or_str (row_bookmaker r) "").

(** The body of [for bm in ev.get("bookmakers", [])], up to
    [rows.append(row)]. *)
Definition build_row (match_label start : string) (bm : UpstreamBookmaker)
    : result TableRow :=
  let meta := Bookmaker.get_bookmaker_meta (bm_key bm) (bm_title bm) in
  let bm_markets := default (JArr []) (bm_markets bm) in
  let* m_h2h := _pick_market bm_markets "h2h" in
  let* s_h2h := _format_h2h m_h2h in
  let* m_spreads := _pick_market bm_markets "spreads" in
  let* s_spreads := _format_spreads m_spreads in
  let* m_totals := _pick_market bm_markets "totals" in
  let* s_totals := _format_totals m_totals in
  Ok {| row_bookmaker := Some (Bookmaker.meta_name meta);
        row_bookmaker_url := Bookmaker.meta_url meta;
        row_match := match_label;
        row_start := start;
        row_h2h := PyStr.or_str (Some s_h2h) "";
        row_spreads := PyStr.or_str (Some s_spreads) "";
        row_totals := PyStr.or_str (Some s_totals) "" |}.

(** [f"{ev.get('home_team','?')} vs {ev.get('away_team','?')}"] *)
Definition match_label_of (ev : UpstreamEvent) : string :=
  default "?" (ev_home_team ev) ++ " vs " ++ default "?" (ev_away_team ev).

(** The rows of one event in upstream order, before [rows.sort]. *)
Definition build_rows (ev : UpstreamEvent) : result (list TableRow) :=
  traverse
    (build_row (match_label_of ev) (default "" (ev_commence_time ev)))
    (default [] (ev_bookmakers ev)).

(** The body of [for ev in events]. *)
Definition build_match (ev : UpstreamEvent) : result MatchGroup :=
  let* rows := build_rows ev in
  Ok {| m_id := ev_id ev;
        m_match := match_label_of ev;
        m_start := default "" (ev_commence_time ev);
        m_rows := PySort.sort_by_key PyStr.leb row_sort_key rows |}.

(** [odds_table(...)], as a function of the upstream response [r] that
    [client.get] returned:
<<
    if r.status_code != 200:
        return JSONResponse({"error": r.text}, status_code=r.status_code)
    events = r.json()
    ...
    return JSONResponse({"columns": columns, "matches": matches})
>>
    [Raise] is an exception that leaves the handler. *)
Definition odds_table (r : UpstreamResponse) : result JSONResponse :=
  if negb (up_status_code r =? 200)%Z then
    Ok {| content := ErrorContent (up_text r);
          status_code := up_status_code r |}
  else
    let* events := up_json r in
    let* matches := traverse build_match events in
    Ok {| content := TableContent columns matches; status_code := 200 |}.

(** *** The response body *)

Definition opt_json (o : option string) : json :=
  match o with Some s => JStr s | None => JNull end.

Definition row_json (r : TableRow) : json :=
  JObj [ ("bookmaker", opt_json (row_bookmaker r));
         ("bookmaker_url", opt_json (row_bookmaker_url r));
         ("match", JStr (row_match r));
         ("start", JStr (row_start r));
         ("h2h", JStr (row_h2h r));
         ("spreads", JStr (row_spreads r));
         ("totals", JStr (row_totals r)) ].

Definition match_json (m : MatchGroup) : json :=
  JObj [ ("id", opt_json (m_id m));
         ("match", JStr (m_match m));
         ("start", JStr (m_start m));
         ("rows", JArr (List.map row_json (m_rows m))) ].

Definition content_json (c : Content) : json :=
  match c with
  | ErrorContent error => JObj [("error", JStr error)]
  | TableContent cols matches =>
      JObj [ ("columns", JArr (List.map JStr cols));
             ("matches", JArr (List.map match_json matches)) ]
  end.

(** [response.body], decoded: the bytes [JSONResponse.render] produces. *)
Definition body (resp : JSONResponse) : string :=
  JsonEnc.dumps py_repr (content_json (content resp)).
End Formatting.

End OddsTable.

(* ===================================================================== *)
(** ** Python floats and decimals                                         *)
(* ===================================================================== *)

Module PyNum.

(** A [decimal.Decimal] as the database driver returns it for a DECIMAL
    column: the finite number [coefficient * 10 ^ exponent]. *)
Record Decimal := mkDecimal {
  coefficient : Z;
  exponent    : Z
}.

(** Truthiness of a column value: [None] (SQL NULL) and a zero decimal are
    falsy. *)
Definition truthy (c : option Decimal) : bool :=
  match c with
  | Some d => negb (coefficient d =? 0)%Z
  | None => false
  end.

(** An integer below [2^63] in magnitude as a float, as the division by
    [len(l)] converts the length. *)
Definition float_of_Z (z : Z) : float :=
  if (z <? 0)%Z then (- PrimFloat.of_uint63 (Uint63.of_Z (- z)))%float
  else PrimFloat.of_uint63 (Uint63.of_Z z).

(** The binary64 number nearest to [n / d] for [d > 0], ties to the even
    mantissa. The quotient is taken with at least 63 bits, a non-zero
    remainder is kept as one more bit below them, and the whole is rounded
    once. *)
Definition nearest_float (n d : Z) : float :=
  let k := Z.max 0 (Z.log2 d - Z.log2 (Z.abs n) + 64) in
  let q := Z.quot (n * 2 ^ k) d in
  let sticky := if (Z.rem (n * 2 ^ k) d =? 0)%Z then 0%Z else Z.sgn n in
  SF2Prim (binary_normalize prec emax (2 * q + sticky) (- k - 1) false).

(** [float(d)]: the correctly rounded value of the decimal, whatever the
    size of its coefficient and exponent; a decimal beyond the range of
    binary64 gives an infinity. *)
Definition py_float (d : Decimal) : float :=
  if (0 <=? exponent d)%Z
  then nearest_float (coefficient d * 10 ^ exponent d) 1
  else nearest_float (coefficient d) (10 ^ (- exponent d)).

(** [float(x) if x else None] *)
Definition float_or_none (c : option Decimal) : option float :=
  if truthy c then option_map py_float c else None.

(** [sum(l)] for a list of floats: the additions run left to right from
    the integer [0]. *)
Definition py_sum (l : list float) : float :=
  fold_left PrimFloat.add l 0%float.

(** [sum(l)] as CPython 3.12 and later compute it, with Neumaier's
    compensation. *)
Definition neumaier_step (st : float * float) (x : float) : float * float :=
  let '(total, c) := st in
  let t := (total + x)%float in
  if (PrimFloat.abs x <=? PrimFloat.abs total)%float
  then (t, (c + ((total - t) + x))%float)
  else (t, (c + ((x - t) + total))%float).

Definition py_sum_compensated (l : list float) : float :=
  let '(total, c) := fold_left neumaier_step l (0%float, 0%float) in
  if negb (c =? 0)%float && PrimFloat.is_finite c
  then (total + c)%float else total.

(** [max(l)] and [min(l)] on a non-empty list [x :: l]: the running value
    is replaced when the next item compares [>] (resp. [<]) to it. *)
Definition py_max1 (x : float) (l : list float) : float :=
  fold_left (fun m item => if (m <? item)%float then item else m) l x.

Definition py_min1 (x : float) (l : list float) : float :=
  fold_left (fun m item => if (item <? m)%float then item else m) l x.

(** [x] is a number, not a NaN: [x == x]. *)
Definition is_number (x : float) : Prop := PrimFloat.is_nan x = false.

(** [len(l)] as the float the division converts it to. *)
Definition float_of_len (l : list float) : float :=
  float_of_Z (Z.of_nat (length l)).

End PyNum.

(* ===================================================================== *)
(** ** main.py                                                            *)
(* ===================================================================== *)

Module Main.
Import PyNum.

(** The ten price and point columns of the snapshot table. *)
Record Quotes := mkQuotes {
  home_h2h_price    : option Decimal;
  away_h2h_price    : option Decimal;
  home_spread_price : option Decimal;
  home_spread_point : option Decimal;
  away_spread_price : option Decimal;
  away_spread_point : option Decimal;
  over_total_price  : option Decimal;
  over_total_point  : option Decimal;
  under_total_price : option Decimal;
  under_total_point : option Decimal
}.

(** One row of [dbo.AFL_2025_odds]. A [datetime] is a number of seconds. *)
Record OddsRow := mkOddsRow {
  event_id        : string;
  sport_key       : string;
  home_team       : option string;
  away_team       : option string;
  commence_time   : Z;
  bookmaker_key   : string;
  bookmaker_title : option string;
  snapshot_at     : Z;
  quotes          : Quotes
}.

(** *** Response models (schemas.py) *)

Record PricePoint := mkPricePoint {
  price : option float;
  point : option float
}.

Record BookmakerOdds := mkBookmakerOdds {
  bo_bookmaker_key   : string;
  bo_bookmaker_title : option string;
  bo_last_update     : Z;
  bo_h2h_home        : option float;
  bo_h2h_away        : option float;
  bo_spreads_home    : PricePoint;
  bo_spreads_away    : PricePoint;
  bo_totals_over     : PricePoint;
  bo_totals_under    : PricePoint
}.

Record Event := mkEvent {
  ev_event_id      : string;
  ev_sport_key     : string;
  ev_home_team     : option string;
  ev_away_team     : option string;
  ev_commence_time : Z;
  ev_bookmakers    : list BookmakerOdds;
  ev_is_live       : bool
}.

(** One entry of [odds_comparison]. *)
Record Comparison := mkComparison {
  best    : float;
  worst   : float;
  average : float
}.

(** The dict [odds_comparison]; [None] is a key that is not in the dict. *)
Record OddsComparison := mkOddsComparison {
  h2h_home : option Comparison;
  h2h_away : option Comparison
}.

Record EventDetail := mkEventDetail {
  ed_event_id        : string;
  ed_sport_key       : string;
  ed_home_team       : option string;
  ed_away_team       : option string;
  ed_commence_time   : Z;
  ed_current_odds    : list BookmakerOdds;
  ed_odds_comparison : OddsComparison
}.

(** The values the query parameter [market_type] can take, by its pattern
    [^(h2h|spreads|totals)$]. *)
Inductive MarketType : Type :=
  | Mh2h
  | Mspreads
  | Mtotals.

(** The dict [point.values], whose keys depend on the market type. *)
Inductive HistoryValues : Type :=
  | H2hValues (home away : option float)
  | SpreadsValues (home_price home_point away_price away_point : option float)
  | TotalsValues (over_price over_point under_price under_point : option float).

Record OddsHistoryPoint := mkOddsHistoryPoint {
  hp_timestamp   : Z;
  hp_bookmaker   : string;
  hp_market_type : MarketType;
  hp_values      : HistoryValues
}.

Record OddsHistory := mkOddsHistory {
  oh_event_id    : string;
  oh_home_team   : option string;
  oh_away_team   : option string;
  oh_market_type : MarketType;
  oh_bookmaker   : option string;
  oh_history     : list OddsHistoryPoint
}.

(** What a handler gives back to FastAPI: a value, or an [HTTPException]. *)
Inductive http (A : Type) : Type :=
  | Return (a : A)
  | HTTPException (status_code : Z) (detail : string).
Arguments Return {A} a.
Arguments HTTPException {A} status_code detail.

(** *** Building one [BookmakerOdds] from a row

    [get_sport_events] and [get_event_detail] contain the same
    constructor call, on the columns of their own query. *)
Definition bookmaker_odds_of (row : OddsRow) : BookmakerOdds :=
  let q := quotes row in
  {| bo_bookmaker_key := bookmaker_key row;
     bo_bookmaker_title := bookmaker_title row;
     bo_last_update := snapshot_at row;
     bo_h2h_home := float_or_none (home_h2h_price q);
     bo_h2h_away := float_or_none (away_h2h_price q);
     bo_spreads_home :=
       {| price := float_or_none (home_spread_price q);
          point := float_or_none (home_spread_point q) |};
     bo_spreads_away :=
       {| price := float_or_none (away_spread_price q);
          point := float_or_none (away_spread_point q) |};
     bo_totals_over :=
       {| price := float_or_none (over_total_price q);
          point := float_or_none (over_total_point q) |};
     bo_totals_under :=
       {| price := float_or_none (under_total_price q);
          point := float_or_none (under_total_point q) |} |}.

(** *** [get_sport_events]

    [rows] is what [cursor.fetchall()] returns for the query of the
    handler: the columns of a snapshot row, with the identity columns taken
    from [RelevantEvents], followed by the computed column [is_live]. *)
Record SportEventRow := mkSportEventRow {
  se_row     : OddsRow;
  se_is_live : Z
}.

(** [events_dict] is a dict in insertion order: an association list with
    distinct keys. *)
Fixpoint has_event (eid : string) (d : list (string * Event)) : bool :=
  match d with
  | [] => false
  | (k, _) :: rest => String.eqb k eid || has_event eid rest
  end.

(** [events_dict[event_id]["bookmakers"].append(bookmaker_odds)] *)
Fixpoint append_odds (eid : string) (bo : BookmakerOdds)
    (d : list (string * Event)) : list (string * Event) :=
  match d with
  | [] => []
  | (k, e) :: rest =>
      if String.eqb k eid
      then (k, {| ev_event_id := ev_event_id e;
                  ev_sport_key := ev_sport_key e;
                  ev_home_team := ev_home_team e;
                  ev_away_team := ev_away_team e;
                  ev_commence_time := ev_commence_time e;
                  ev_bookmakers := (ev_bookmakers e ++ [bo])%list;
                  ev_is_live := ev_is_live e |}) :: rest
      else (k, e) :: append_odds eid bo rest
  end.

(** The body of [for row in rows]. *)
Definition events_step (sport : string) (d : list (string * Event))
    (r : SportEventRow) : list (string * Event) :=
  let row := se_row r in
  let eid := event_id row in
  let d' :=
    if has_event eid d then d
    else (d ++ [(eid, {| ev_event_id := eid;
                        ev_sport_key := sport;
                        ev_home_team := home_team row;
                        ev_away_team := away_team row;
                        ev_commence_time := commence_time row;
                        ev_bookmakers := [];
                        ev_is_live := negb (se_is_live r =? 0)%Z |})])%list in
  append_odds eid (bookmaker_odds_of row) d'.

(** [get_sport_events(sport_key)] on the fetched [rows]:
<<
    if not rows: return []
    events_dict = {}
    for row in rows: ...
    events = list(events_dict.values())
    events.sort(key=lambda x: x["commence_time"])
    return events
>> *)
Definition get_sport_events (sport : string) (rows : list SportEventRow)
    : http (list Event) :=
  match rows with
  | [] => Return []
  | _ =>
      let events_dict := fold_left (events_step sport) rows [] in
      let events := List.map snd events_dict in
      Return (PySort.sort_by_key Z.leb ev_commence_time events)
  end.

(** *** [get_event_detail] *)

(** The two loops [if row[8]: h2h_home_prices.append(float(row[8]))]; [sel]
    picks the column. *)
Fixpoint collect_prices (sel : Quotes -> option Decimal) (rows : list OddsRow)
    : list float :=
  match rows with
  | [] => []
  | row :: rest =>
      match float_or_none (sel (quotes row)) with
      | Some f => f :: collect_prices sel rest
      | None => collect_prices sel rest
      end
  end.

(** [{"best": max(l), "worst": min(l), "average": sum(l) / len(l)}] under
    the guard [if l:]. *)
Definition comparison_of (prices : list float) : option Comparison :=
  match prices with
  | [] => None
  | x :: rest =>
      Some {| best := py_max1 x rest;
              worst := py_min1 x rest;
              average := (py_sum prices / float_of_len prices)%float |}
  end.

(** [get_event_detail(event_id)] on the fetched [rows] (the rows of the
    event at its latest snapshot). *)
Definition get_event_detail (eid : string) (rows : list OddsRow)
    : http EventDetail :=
  match rows with
  | [] => HTTPException 404 "Event not found"
  | first_row :: _ =>
      Return
        {| ed_event_id := eid;
           ed_sport_key := sport_key first_row;
           ed_home_team := home_team first_row;
           ed_away_team := away_team first_row;
           ed_commence_time := commence_time first_row;
           ed_current_odds := List.map bookmaker_odds_of rows;
           ed_odds_comparison :=
             {| h2h_home := comparison_of (collect_prices home_h2h_price rows);
                h2h_away := comparison_of (collect_prices away_h2h_price rows) |} |}
  end.

(** *** [get_event_history] *)

(** The [if market_type == ...] chain that fills [point.values]. *)
Definition history_values (market_type : MarketType) (row : OddsRow)
    : HistoryValues :=
  let q := quotes row in
  match market_type with
  | Mh2h =>
      H2hValues (float_or_none (home_h2h_price q))
                (float_or_none (away_h2h_price q))
  | Mspreads =>
      SpreadsValues (float_or_none (home_spread_price q))
                    (float_or_none (home_spread_point q))
                    (float_or_none (away_spread_price q))
                    (float_or_none (away_spread_point q))
  | Mtotals =>
      TotalsValues (float_or_none (over_total_price q))
                   (float_or_none (over_total_point q))
                   (float_or_none (under_total_price q))
                   (float_or_none (under_total_point q))
  end.

Definition history_point (market_type : MarketType) (row : OddsRow)
    : OddsHistoryPoint :=
  {| hp_timestamp := snapshot_at row;
     hp_bookmaker := bookmaker_key row;
     hp_market_type := market_type;
     hp_values := history_values market_type row |}.

(** The rest of [get_event_history] once both queries have answered with
    [(home_team, away_team)] and the history [rows]. *)
Definition history_response (eid : string) (market_type : MarketType)
    (bookmaker : option string) (home away : option string)
    (rows : list OddsRow) : http OddsHistory :=
  match rows with
  | [] =>
      Return {| oh_event_id := eid;
                oh_home_team := home;
                oh_away_team := away;
                oh_market_type := market_type;
                oh_bookmaker := bookmaker;
                oh_history := [] |}
  | _ =>
      Return {| oh_event_id := eid;
                oh_home_team := home;
                oh_away_team := away;
                oh_market_type := market_type;
                oh_bookmaker := bookmaker;
                oh_history := List.map (history_point market_type) rows |}
  end.

(** What [cursor.execute(...); cursor.fetchall()] gives: the rows, or an
    exception of the driver with its message. *)
Inductive fetched : Type :=
  | Rows (rows : list OddsRow)
  | DriverError (message : string).

(** The handler splices [bookmaker] into the SQL text between two
    apostrophes. A value without an apostrophe is a string literal there. *)
Definition sql_plain (bookmaker : option string) : bool :=
  match bookmaker with
  | Some b => negb (PyStr.contains "'" b)
  | None => true
  end.

Section Store.
(** The order of the collation of the [bookmaker_key] column. *)
Variable collation_leb : string -> string -> bool.

(** What the store answers to the history query when the spliced
    [bookmaker] is not a plain literal, so that the text is another query
    or no query at all; the model leaves it open. *)
Variable spliced_query : list OddsRow -> Z -> string -> string -> Z -> fetched.

(** [SELECT TOP 1 home_team, away_team ... WHERE event_id = ?] *)
Definition info_query (table : list OddsRow) (eid : string)
    : option (option string * option string) :=
  match List.filter (fun row => String.eqb (event_id row) eid) table with
  | [] => None
  | row :: _ => Some (home_team row, away_team row)
  end.

(** [snapshot_at >= DATEADD(hour, -hours, GETDATE())] *)
Definition in_window (now hours : Z) (row : OddsRow) : bool :=
  (now - hours * 3600 <=? snapshot_at row)%Z.

(** The [WHERE] clause of the history query: the event, the look-back
    window, and the bookmaker when one is given. *)
Definition history_where (now : Z) (eid : string)
    (bookmaker : option string) (hours : Z) (row : OddsRow) : bool :=
  String.eqb (event_id row) eid
  && in_window now hours row
  && (if PyStr.truthy bookmaker
      then String.eqb (bookmaker_key row) (default "" bookmaker)
      else true).

(** [ORDER BY snapshot_at ASC, bookmaker_key] *)
Definition history_order (a b : OddsRow) : bool :=
  if (snapshot_at a <? snapshot_at b)%Z then true
  else if (snapshot_at b <? snapshot_at a)%Z then false
  else collation_leb (bookmaker_key a) (bookmaker_key b).

Definition history_query (table : list OddsRow) (now : Z) (eid : string)
    (bookmaker : option string) (hours : Z) : fetched :=
  if sql_plain bookmaker then
    Rows (PySort.sort_by history_order
            (List.filter (history_where now eid bookmaker hours) table))
  else spliced_query table now eid (default "" bookmaker) hours.

(** [get_event_history(event_id, market_type, bookmaker, hours)] at time
    [now] (the value of [GETDATE()]) on the stored [table]. FastAPI calls
    the handler only with [1 <= hours <= 168]. An exception of the driver
    becomes [HTTPException(status_code=500, detail=str(e))]. *)
Definition get_event_history (table : list OddsRow) (now : Z)
    (eid : string) (market_type : MarketType) (bookmaker : option string)
    (hours : Z) : http OddsHistory :=
  match info_query table eid with
  | None => HTTPException 404 "Event not found"
  | Some (home, away) =>
      match history_query table now eid bookmaker hours with
      | Rows rows => history_response eid market_type bookmaker home away rows
      | DriverError message => HTTPException 500 message
      end
  end.
End Store.

(** *** [get_sports] *)

Record Sport := mkSport {
  sp_sport_key   : string;
  sp_sport_name  : string;
  sp_event_count : Z
}.

(** The dict [sport_names] of the handler. *)
Definition sport_names : gmap string string :=
  list_to_map
    [ ("australianfootball_afl", "Australian Football AFL");
      ("soccer_epl",             "English Premier League");
      ("basketball_nba",         "NBA Basketball") ].

(** A fetched row [(sport_key, event_count)]. *)
Record SportRow := mkSportRow {
  sr_sport_key   : string;
  sr_event_count : option Z
}.

(** [row[1] or 0] *)
Definition count_or_zero (c : option Z) : Z :=
  match c with
  | Some n => if (n =? 0)%Z then 0%Z else n
  | None => 0%Z
  end.

(** [get_sports()] on the fetched [rows]:
<<
    sports = []
    for row in rows:
        sport_key = row[0]
        sports.append(Sport(sport_key=sport_key,
                            sport_name=sport_names.get(sport_key, sport_key),
                            event_count=row[1] or 0))
    return sports
>> *)
Definition get_sports (rows : list SportRow) : list Sport :=
  fold_left
    (fun sports row =>
       let sport_key := sr_sport_key row in
       (sports ++ [ {| sp_sport_key := sport_key;
                       sp_sport_name :=
                         default sport_key (sport_names !! sport_key);
                       sp_event_count := count_or_zero (sr_event_count row) |} ])%list)
    rows [].

(** *** [get_all_bookmakers] *)

Record BookmakerList := mkBookmakerList {
  bl_bookmakers : list (string * string);
  bl_total      : nat
}.

(** [get_all_bookmakers()] on the fetched rows [(bookmaker_key,
    bookmaker_title)]: the pairs as dicts, and their number. *)
Definition get_all_bookmakers (rows : list (string * string)) : BookmakerList :=
  let bookmakers := List.map (fun row => (fst row, snd row)) rows in
  {| bl_bookmakers := bookmakers; bl_total := length bookmakers |}.

End Main.

(* ===================================================================== *)
(** ** Vocabulary of the specification                                    *)
(* ===================================================================== *)

Module MainSpec.
Import PyNum Main.






(** The non-absent prices of one column across the rows, in row order. *)
Definition non_absent_prices (sel : Quotes -> option Decimal)
    (rows : list OddsRow) : list float :=
  omap (fun row => float_or_none (sel (quotes row))) rows.

(** [bo] was built from one of the fetched rows; every entry of
    [events_dict] holds such records only. *)
Definition from_row (all_rows : list SportEventRow) (bo : BookmakerOdds)
    : Prop :=
  exists r, r ∈ all_rows /\ bo = bookmaker_odds_of (se_row r).

Definition all_from_rows (all_rows : list SportEventRow)
    (d : list (string * Event)) : Prop :=
  Forall (fun ke => Forall (from_row all_rows) (ev_bookmakers ke.2)) d.

(** The arithmetic mean as binary64 arithmetic evaluates it: the sum taken
    left to right, divided by the count. *)
Definition mean (l : list float) : float :=
  (py_sum l / float_of_len l)%float.

(** The number a finite binary64 value stands for; an infinity and a NaN
    stand for none. *)
Definition exact_value (x : float) : option Q :=
  match Prim2SF x with
  | S754_zero _ => Some 0%Q
  | S754_finite s m e =>
      Some (inject_Z (if s then Z.neg m else Z.pos m) * Qpower 2 e)%Q
  | _ => None
  end.

(** The sum of the numbers the prices stand for, in exact arithmetic. *)
Fixpoint exact_sum (l : list float) : option Q :=
  match l with
  | [] => Some 0%Q
  | x :: rest =>
      match exact_value x, exact_sum rest with
      | Some q, Some qs => Some (q + qs)%Q
      | _, _ => None
      end
  end.

(** [a] is the arithmetic mean of [l]: [a] times the number of elements
    is their sum, in exact arithmetic. *)
Definition is_arithmetic_mean (l : list float) (a : float) : bool :=
  match exact_value a, exact_sum l with
  | Some qa, Some qs =>
      Qeq_bool (qa * inject_Z (Z.of_nat (length l)))%Q qs
  | _, _ => false
  end.

(** The mean as binary64 arithmetic gives it: the prices are added one by
    one, first to last, each addition rounded, and the sum is divided by
    their number, the quotient rounded once more. *)
Fixpoint sum_left (acc : float) (l : list float) : float :=
  match l with
  | [] => acc
  | x :: rest => sum_left (acc + x)%float rest
  end.

Definition count_of (l : list float) : float :=
  PrimFloat.of_uint63 (Uint63.of_Z (Z.of_nat (length l))).

Definition binary64_mean (l : list float) : float :=
  (sum_left 0%float l / count_of l)%float.




(** The ordering claimed of a side that is present. *)
Definition side_ordered (prices : list float) (side : option Comparison) : Prop :=
  forall c, side = Some c ->
    (worst c <=? average c)%float = true
    /\ (average c <=? best c)%float = true
    /\ best c ∈ prices /\ worst c ∈ prices.

(** The part of it that holds: [best] and [worst] are collected prices,
    and every collected price lies between them. *)
Definition side_bounded (prices : list float) (side : option Comparison) : Prop :=
  forall c, side = Some c ->
    best c ∈ prices /\ worst c ∈ prices
    /\ (worst c <=? best c)%float = true
    /\ (forall p, p ∈ prices ->
          (worst c <=? p)%float = true /\ (p <=? best c)%float = true)
    /\ average c = mean prices.

End MainSpec.

Module OddsTableSpec.
Import Py OddsTable.

Definition is_object (v : json) : bool :=
  match v with JObj _ => true | _ => false end.

(** [None], a boolean or a number: a value that is neither a container
    nor a string. *)
Definition is_scalar (v : json) : bool :=
  match v with JNull | JBool _ | JNum _ => true | _ => false end.


(** A 2xx status. *)
Definition is_success (status : Z) : bool :=
  ((200 <=? status) && (status <? 300))%Z.

(** The response hands the upstream status and the upstream body through
    unchanged. *)
Definition verbatim_error (py_repr : json -> string) (r : UpstreamResponse)
    : Prop :=
  exists resp,
    odds_table py_repr r = Ok resp
    /\ status_code resp = up_status_code r
    /\ body py_repr resp = up_text r.















End OddsTableSpec.

Module FormatSpec.
Import Py OddsTable OddsTableSpec.

(** [m] is a market object whose ["key"] is the string [key]. *)
Definition market_has_key (key : string) (m : json) : bool :=
  match m with
  | JObj members =>
      match assoc "key" members with
      | Some v => eq_str v key
      | None => false
      end
  | _ => false
  end.

(** [o] is an object that has every key of [ks]. *)
Definition has_keys (ks : list string) (o : json) : bool :=
  match o with
  | JObj members =>
      forallb (fun k => bool_decide (is_Some (assoc k members))) ks
  | _ => false
  end.

(** The member [k] of an object. *)
Definition field (k : string) (o : json) : json :=
  match o with
  | JObj members => default JNull (assoc k members)
  | _ => JNull
  end.

(** The text of one outcome in each of the three columns. *)
Definition h2h_text (py_repr : json -> string) (o : json) : string :=
  JsonEnc.py_str py_repr (field "name" o) ++ ": "
  ++ JsonEnc.py_str py_repr (field "price" o).

Definition npp_text (py_repr : json -> string)
    (render : string -> string -> string -> string) (o : json) : string :=
  render (JsonEnc.py_str py_repr (field "name" o))
         (JsonEnc.py_str py_repr (field "point" o))
         (JsonEnc.py_str py_repr (field "price" o)).

(** The outcomes of a market object when they are a list of objects. *)
Definition object_outcomes (members : list (string * json))
    (outs : list json) : Prop :=
  assoc "outcomes" members = Some (JArr outs)
  /\ forallb is_object outs = true.

(** Some lookup of the three markets raises on the [markets] value. *)
Definition pick_raises (markets : json) : Prop :=
  exists key e,
    key ∈ ["h2h"; "spreads"; "totals"]
    /\ _pick_market markets key = Raise e.

(** A row against the bookmaker entry it is built from: the label and
    the start of the event, and the name and url resolved for the entry. *)
Definition row_of_entry (label start : string) (bm : UpstreamBookmaker)
    (row : TableRow) : Prop :=
  row_match row = label
  /\ row_start row = start
  /\ row_bookmaker row
     = Some (Bookmaker.meta_name
               (Bookmaker.get_bookmaker_meta (bm_key bm) (bm_title bm)))
  /\ row_bookmaker_url row
     = Bookmaker.meta_url
         (Bookmaker.get_bookmaker_meta (bm_key bm) (bm_title bm)).

(** What one element of [matches] takes from its event: the id, the label
    and the start, and rows that are, up to their order, one row per
    bookmaker entry: [built] pairs the entries off with rows, position by
    position, and [rows] is a rearrangement of it. *)
Definition match_of_event (ev : UpstreamEvent) (m : MatchGroup) : Prop :=
  m_id m = ev_id ev
  /\ m_match m = match_label_of ev
  /\ m_start m = default "" (ev_commence_time ev)
  /\ exists built,
       Forall2 (row_of_entry (m_match m) (m_start m))
               (default [] (ev_bookmakers ev)) built
       /\ m_rows m ≡ₚ built.

End FormatSpec.

Module EventsSpec.
Import PyNum Main.

(** The fetched rows of one event, in fetched order. *)
Definition rows_of (eid : string) (rows : list SportEventRow)
    : list SportEventRow :=
  List.filter (fun r => String.eqb (event_id (se_row r)) eid) rows.

(** The event a non-empty group of rows stands for: the first row gives
    the identity fields and the live flag, every row gives one entry of
    [bookmakers]. *)
Definition event_of_rows (sport : string) (group : list SportEventRow)
    : option Event :=
  match group with
  | [] => None
  | first :: _ =>
      Some {| ev_event_id := event_id (se_row first);
              ev_sport_key := sport;
              ev_home_team := home_team (se_row first);
              ev_away_team := away_team (se_row first);
              ev_commence_time := commence_time (se_row first);
              ev_bookmakers :=
                List.map (fun r => bookmaker_odds_of (se_row r)) group;
              ev_is_live := negb (se_is_live first =? 0)%Z |}
  end.

(** An event with one more entry at the end of its [bookmakers]. *)
Definition with_bookmaker (e : Event) (bo : BookmakerOdds) : Event :=
  {| ev_event_id := ev_event_id e;
     ev_sport_key := ev_sport_key e;
     ev_home_team := ev_home_team e;
     ev_away_team := ev_away_team e;
     ev_commence_time := ev_commence_time e;
     ev_bookmakers := (ev_bookmakers e ++ [bo])%list;
     ev_is_live := ev_is_live e |}.

(** What [events_dict] holds once the rows [seen] are processed. *)
Definition dict_inv (sport : string) (seen : list SportEventRow)
    (d : list (string * Event)) : Prop :=
  NoDup (List.map fst d)
  /\ (forall r, r ∈ seen -> has_event (event_id (se_row r)) d = true)
  /\ (forall k e, (k, e) ∈ d ->
        event_of_rows sport (rows_of k seen) = Some e).

(** The number of bookmaker entries over a list of events. *)
Definition total_bookmakers (events : list Event) : nat :=
  fold_right (fun e n => length (ev_bookmakers e) + n) 0 events.

(** The same number over the values of [events_dict]. *)
Definition dict_total (d : list (string * Event)) : nat :=
  total_bookmakers (List.map snd d).

Definition commence_le (a b : Event) : Prop :=
  (ev_commence_time a <= ev_commence_time b)%Z.

(** One side of [odds_comparison] against the [current_odds] of the same
    response, [quote] being the field of the side: the side is missing
    when no entry quotes it, and otherwise its best and its worst price are
    each quoted by an entry. *)
Definition side_quoted (quote : BookmakerOdds -> option float)
    (odds : list BookmakerOdds) (side : option Comparison) : Prop :=
  match side with
  | None => Forall (fun bo => quote bo = None) odds
  | Some c =>
      (exists bo, bo ∈ odds /\ quote bo = Some (best c))
      /\ (exists bo, bo ∈ odds /\ quote bo = Some (worst c))
  end.

Definition snapshot_le (a b : OddsRow) : Prop :=
  (snapshot_at a <= snapshot_at b)%Z.

(** A history point is inside the look-back window, and of the wanted
    bookmaker when one is asked for. *)
Definition point_admitted (now hours : Z) (bookmaker : option string)
    (market_type : MarketType) (pt : OddsHistoryPoint) : Prop :=
  (now - hours * 3600 <= hp_timestamp pt)%Z
  /\ hp_market_type pt = market_type
  /\ (PyStr.truthy bookmaker = true ->
      hp_bookmaker pt = default "" bookmaker).

Definition timestamp_le (a b : OddsHistoryPoint) : Prop :=
  (hp_timestamp a <= hp_timestamp b)%Z.

(** One [Sport] against the fetched row it comes from. *)
Definition sport_of_row (row : SportRow) (s : Sport) : Prop :=
  sp_sport_key s = sr_sport_key row
  /\ sp_sport_name s
     = default (sr_sport_key row) (sport_names !! sr_sport_key row)
  /\ sp_event_count s = default 0%Z (sr_event_count row)
  /\ (sr_sport_key row <> "" -> sp_sport_name s <> "").

End EventsSpec.

(* ===================================================================== *)
(** ** Sample data                                                        *)
(* ===================================================================== *)

Module Samples.
Import PyNum Main.

Definition dec (coefficient exponent : Z) : option Decimal :=
  Some (mkDecimal coefficient exponent).

(** A row of event [E1] that quotes only the head-to-head market. *)
Definition h2h_row (bookmaker : string) (snapshot : Z)
    (home away : option Decimal) : OddsRow :=
  {| event_id := "E1"; sport_key := "aussierules_afl";
     home_team := Some "Lions"; away_team := Some "Swans";
     commence_time := 5000;
     bookmaker_key := bookmaker; bookmaker_title := Some bookmaker;
     snapshot_at := snapshot;
     quotes := mkQuotes home away None None None None None None None None |}.

(** Bookmakers A (home 2.10), B (home 1.95), C (no home price); no away
    price anywhere. *)
Definition rows_abc : list OddsRow :=
  [ h2h_row "a" 900 (dec 210 (-2)) None;
    h2h_row "b" 900 (dec 195 (-2)) None;
    h2h_row "c" 900 None None ].

(** Three bookmakers quoting the same home price 1.60, one of them a zero
    away price. *)
Definition rows_160 : list OddsRow :=
  [ h2h_row "a" 900 (dec 160 (-2)) (dec 0 0);
    h2h_row "b" 900 (dec 160 (-2)) None;
    h2h_row "c" 900 (dec 160 (-2)) None ].

(** Two bookmakers quoting home prices 1.50 and 2.50. *)
Definition rows_150_250 : list OddsRow :=
  [ h2h_row "a" 900 (dec 150 (-2)) None;
    h2h_row "b" 900 (dec 250 (-2)) None ].

(** A stored table: event [E1] has two snapshots, at times 100 and 900. *)
Definition table_e1 : list OddsRow :=
  [ h2h_row "a" 100 (dec 210 (-2)) (dec 175 (-2));
    h2h_row "b" 900 (dec 0 0) (dec 180 (-2)) ].

(** The store on a history query whose spliced [bookmaker] holds a single
    apostrophe, as [it's] does: the apostrophes of the text do not pair
    up, and the statement is rejected. *)
Definition store_unclosed_quote
    : list OddsRow -> Z -> string -> string -> Z -> Main.fetched :=
  fun _ _ _ _ _ =>
    Main.DriverError "Unclosed quotation mark after the character string".

Definition event_rows_e1 : list SportEventRow :=
  [ mkSportEventRow (h2h_row "a" 900 (dec 0 0) (dec 175 (-2))) 0;
    mkSportEventRow (h2h_row "b" 900 (dec 195 (-2)) None) 0 ].

(** An upstream failure: status 401 with a plain-text body. *)
Definition upstream_401 : OddsTable.UpstreamResponse :=
  {| OddsTable.up_status_code := 401;
     OddsTable.up_text := "unauthorized";
     OddsTable.up_json := Py.Raise Py.ValueError |}.

Definition outcome (name : string) (price : Z) : Py.json :=
  Py.JObj [("name", Py.JStr name); ("price", Py.JNum (Py.NInt price))].

(** One event with four bookmakers; the second sends a market whose
    outcomes are not objects, the first and the last resolve to the same
    display name. *)
Definition upstream_200 : OddsTable.UpstreamResponse :=
  {| OddsTable.up_status_code := 200;
     OddsTable.up_text := "";
     OddsTable.up_json :=
       Py.Ok
         [ {| OddsTable.ev_id := Some "E1";
              OddsTable.ev_home_team := Some "Lions";
              OddsTable.ev_away_team := None;
              OddsTable.ev_commence_time := Some "2025-06-01T09:30:00Z";
              OddsTable.ev_bookmakers :=
                Some
                  [ {| OddsTable.bm_key := Some "tab";
                       OddsTable.bm_title := Some "TAB";
                       OddsTable.bm_markets :=
                         Some (Py.JArr
                                 [Py.JObj [("key", Py.JStr "h2h");
                                           ("outcomes",
                                            Py.JArr [outcome "Lions" 2;
                                                     outcome "Swans" 3])]]) |};
                    {| OddsTable.bm_key := Some "neds";
                       OddsTable.bm_title := Some "Neds";
                       OddsTable.bm_markets :=
                         Some (Py.JArr
                                 [Py.JObj [("key", Py.JStr "h2h");
                                           ("outcomes",
                                            Py.JArr [Py.JNum (Py.NInt 7)])]]) |};
                    {| OddsTable.bm_key := Some "betr";
                       OddsTable.bm_title := None;
                       OddsTable.bm_markets := None |};
                    {| OddsTable.bm_key := Some "TAB_AU";
                       OddsTable.bm_title := Some "Tab (alias)";
                       OddsTable.bm_markets := None |} ] |} ] |}.

(** A rendering of integers good enough for the samples. *)
Definition repr_sample (v : Py.json) : string :=
  match v with
  | Py.JNum (Py.NInt 2) => "2"
  | Py.JNum (Py.NInt 3) => "3"
  | _ => "?"
  end.

(** A 200 response in which the second bookmaker sends ["markets": null]. *)
Definition upstream_null_markets : OddsTable.UpstreamResponse :=
  {| OddsTable.up_status_code := 200;
     OddsTable.up_text := "";
     OddsTable.up_json :=
       Py.Ok
         [ {| OddsTable.ev_id := Some "E1";
              OddsTable.ev_home_team := Some "Lions";
              OddsTable.ev_away_team := Some "Swans";
              OddsTable.ev_commence_time := None;
              OddsTable.ev_bookmakers :=
                Some
                  [ {| OddsTable.bm_key := Some "tab";
                       OddsTable.bm_title := None;
                       OddsTable.bm_markets := Some (Py.JArr []) |};
                    {| OddsTable.bm_key := Some "neds";
                       OddsTable.bm_title := None;
                       OddsTable.bm_markets := Some Py.JNull |} ] |} ] |}.


(** A head-to-head market whose only outcome has a null name and a
    boolean price. *)
Definition market_odd_values : Py.json :=
  Py.JObj [ ("key", Py.JStr "h2h");
            ("outcomes",
             Py.JArr [ Py.JObj [("name", Py.JNull);
                                ("price", Py.JBool true)] ]) ].

(** A head-to-head market with one outcome that lacks its price. *)
Definition market_h2h : Py.json :=
  Py.JObj [ ("key", Py.JStr "h2h");
            ("outcomes",
             Py.JArr [ outcome "Lions" 2;
                       Py.JObj [("name", Py.JStr "Draw")];
                       outcome "Swans" 3 ]) ].

Definition market_totals : Py.json :=
  Py.JObj [ ("key", Py.JStr "totals"); ("outcomes", Py.JArr []) ].

(** Fetched rows of two events: [E2] starts first but is fetched between
    the two rows of [E1]. *)
Definition row_of_event (eid bookmaker : string) (commence : Z)
    (home : option Decimal) : OddsRow :=
  {| event_id := eid; sport_key := "aussierules_afl";
     home_team := Some "Lions"; away_team := Some "Swans";
     commence_time := commence;
     bookmaker_key := bookmaker; bookmaker_title := None;
     snapshot_at := 900;
     quotes := mkQuotes home None None None None None None None None None |}.

Definition event_rows_two : list SportEventRow :=
  [ mkSportEventRow (row_of_event "E1" "a" 7000 (dec 210 (-2))) 0;
    mkSportEventRow (row_of_event "E2" "a" 6000 (dec 150 (-2))) 1;
    mkSportEventRow (row_of_event "E1" "b" 7000 None) 0 ].

Definition sport_rows : list SportRow :=
  [ mkSportRow "australianfootball_afl" (Some 4%Z);
    mkSportRow "cricket_bbl" None ].

End Samples.

(* ===================================================================== *)
(** * Properties                                                          *)
(* ===================================================================== *)

(** ** Strings *)

Module PyStrFacts.
Import PyStr.

Ltac by_ascii_cases a :=
  destruct a as [[] [] [] [] [] [] [] []]; vm_compute; reflexivity.

Lemma lower_char_idem (a : ascii) : lower_char (lower_char a) = lower_char a.
Proof. by_ascii_cases a. Qed.

Lemma is_space_lower_char (a : ascii) : is_space (lower_char a) = is_space a.
Proof. by_ascii_cases a. Qed.

Lemma lower_idem (s : string) : lower (lower s) = lower s.
Proof.
  induction s as [|a s IH]; simpl; [reflexivity|].
  now rewrite lower_char_idem, IH.
Qed.

Lemma lower_lstrip (s : string) : lower (lstrip s) = lstrip (lower s).
Proof.
  induction s as [|a s IH]; simpl; [reflexivity|].
  rewrite is_space_lower_char. destruct (is_space a); [exact IH|reflexivity].
Qed.

Lemma lower_rstrip (s : string) : lower (rstrip s) = rstrip (lower s).
Proof.
  induction s as [|a s IH]; simpl; [reflexivity|].
  rewrite <- IH, is_space_lower_char.
  destruct (rstrip s) as [|b r]; simpl; [|reflexivity].
  destruct (is_space a); reflexivity.
Qed.

Lemma lower_strip (s : string) : lower (strip s) = strip (lower s).
Proof. unfold strip. now rewrite lower_rstrip, lower_lstrip. Qed.

Lemma rstrip_idem (s : string) : rstrip (rstrip s) = rstrip s.
Proof.
  induction s as [|a s IH]; simpl; [reflexivity|].
  destruct (rstrip s) as [|b r] eqn:E.
  - destruct (is_space a) eqn:Ea; simpl; [reflexivity|]. now rewrite Ea.
  - change (rstrip (String a (String b r))) with
      (match rstrip (String b r) with
       | EmptyString => if is_space a then EmptyString else String a EmptyString
       | r' => String a r'
       end).
    now rewrite IH.
Qed.

Lemma lstrip_clean_head (s : string) : clean_head (lstrip s).
Proof.
  induction s as [|a s IH]; simpl; [exact I|].
  destruct (is_space a) eqn:E; [exact IH|exact E].
Qed.

Lemma rstrip_clean_head (s : string) : clean_head s -> clean_head (rstrip s).
Proof.
  destruct s as [|a s]; simpl; [trivial|]. intros Ha.
  destruct (rstrip s); simpl; [now rewrite Ha|exact Ha].
Qed.

Lemma lstrip_clean (s : string) : clean_head s -> lstrip s = s.
Proof. destruct s as [|a s]; simpl; [reflexivity|]. now intros ->. Qed.

Lemma strip_idem (s : string) : strip (strip s) = strip s.
Proof.
  unfold strip.
  rewrite (lstrip_clean (rstrip (lstrip s))).
  - apply rstrip_idem.
  - apply rstrip_clean_head, lstrip_clean_head.
Qed.

(** A stripped and lowered string is a fixed point of strip-then-lower. *)
Lemma lower_strip_fixed (s : string) :
  lower (strip (lower (strip s))) = lower (strip s).
Proof. now rewrite <- lower_strip, lower_idem, strip_idem. Qed.

Lemma nonempty_false (s : string) : nonempty s = false -> s = "".
Proof. destruct s; [reflexivity|discriminate]. Qed.

Lemma nonempty_true (s : string) : nonempty s = true <-> s <> "".
Proof. destruct s; simpl; split; congruence. Qed.

Lemma or_str_some_nonempty (s b : string) :
  nonempty s = true -> or_str (Some s) b = s.
Proof. unfold or_str. now intros ->. Qed.

End PyStrFacts.

(** ** The bookmaker registry *)

Module BookmakerProps.
Import PyStr PyStrFacts Bookmaker.

Lemma alias_items (a c : string) :
  ALIASES !! a = Some c -> (a, c) ∈ ALIASES_items.
Proof. apply elem_of_list_to_map_2. Qed.

(** No canonical key is itself an alias, and each is already stripped and
    lower-case: normalizing a canonical key returns it. *)
Lemma normalize_alias (a c : string) :
  ALIASES !! a = Some c ->
  normalize_key (Some a) = c /\ normalize_key (Some c) = c.
Proof.
  intros H%alias_items. unfold ALIASES_items in H.
  repeat (apply elem_of_cons in H as [H|H];
          [injection H as -> ->; split; vm_compute; reflexivity|]).
  now apply elem_of_nil in H.
Qed.

Lemma normalize_key_falsy (key : option string) :
  truthy key = false -> normalize_key key = "".
Proof. unfold normalize_key. now intros ->. Qed.

Lemma normalize_key_idempotent (key : option string) :
  normalize_key (Some (normalize_key key)) = normalize_key key.
Proof.
  destruct (truthy key) eqn:Ht.
  2: { rewrite (normalize_key_falsy key Ht). reflexivity. }
  unfold normalize_key at 2 3. rewrite Ht. simpl.
  set (k := lower (strip (default "" key))).
  destruct (ALIASES !! k) as [c|] eqn:Hk; simpl.
  - apply (normalize_alias k c Hk).
  - unfold normalize_key. simpl.
    destruct (nonempty k) eqn:Hn; simpl.
    + assert (Hfix : lower (strip k) = k) by apply lower_strip_fixed.
      rewrite Hfix, Hk. reflexivity.
    + symmetry. now apply nonempty_false.
Qed.

(** C5. [normalize_key] is defined on every input, [None] and the empty
    string give the empty string, normalizing twice is normalizing once,
    and every alias of the table normalizes to its canonical key, which
    normalizes to itself. *)
Theorem normalize_key_total_idempotent :
  (forall key : option string, exists k : string, normalize_key key = k)
  /\ normalize_key None = ""
  /\ normalize_key (Some "") = ""
  /\ (forall key : option string,
        normalize_key (Some (normalize_key key)) = normalize_key key)
  /\ (forall a c : string,
        ALIASES !! a = Some c ->
        normalize_key (Some a) = c /\ normalize_key (Some c) = c).
Proof.
  split; [intros key; now exists (normalize_key key)|].
  split; [reflexivity|]. split; [reflexivity|].
  split; [exact normalize_key_idempotent|exact normalize_alias].
Qed.

Lemma normalize_key_total_idempotent_witness :
  normalize_key (Some "  Bet_Right ") = "betright"
  /\ normalize_key (Some "bet_right") = "betright"
  /\ normalize_key (Some "betright") = "betright".
Proof.
  split; [reflexivity|].
  apply (proj2 (proj2 (proj2 (proj2 normalize_key_total_idempotent)))
           "bet_right" "betright").
  reflexivity.
Defined.

Lemma canonical_name_nonempty (k c : string) :
  CANONICAL_NAME !! k = Some c -> nonempty c = true.
Proof.
  intros H%elem_of_list_to_map_2.
  repeat (apply elem_of_cons in H as [H|H]; [injection H as -> ->; reflexivity|]).
  now apply elem_of_nil in H.
Qed.

Lemma or_str_spec (a : option string) (b : string) :
  or_str a b = if truthy a then default "" a else b.
Proof. destruct a as [s|]; simpl; [destruct (nonempty s)|]; reflexivity. Qed.

Lemma meta_name_spec (key title : option string) :
  meta_name (get_bookmaker_meta key title) = spec_display_name key title.
Proof.
  unfold get_bookmaker_meta, spec_display_name. simpl.
  destruct (CANONICAL_NAME !! normalize_key key) as [c|] eqn:Hc.
  - apply or_str_some_nonempty, (canonical_name_nonempty _ _ Hc).
  - simpl. rewrite (or_str_spec title), (or_str_spec key).
    destruct (truthy title), (truthy key); reflexivity.
Qed.

(** C2 as stated fails: with no key and a non-empty title the [key] field
    of the result is empty. *)
Lemma meta_key_empty_with_title :
  ~ (forall key title : option string,
       truthy key = true \/ truthy title = true ->
       meta_key (get_bookmaker_meta key title) <> "").
Proof.
  intros H. apply (H None (Some "Some Title")); [right|]; reflexivity.
Qed.

(** C2, amended. If the input key is non-empty, the [key] field of the
    result is non-empty. *)
Theorem meta_key_nonempty (key title : option string) :
  truthy key = true ->
  meta_key (get_bookmaker_meta key title) <> "".
Proof.
  intros Hk. unfold get_bookmaker_meta. simpl.
  destruct (nonempty (normalize_key key)) eqn:Hn.
  - intros E. apply nonempty_true in Hn. now apply Hn.
  - rewrite (or_str_spec key), Hk.
    destruct key as [s|]; [|discriminate]. simpl in *.
    now apply nonempty_true.
Qed.

Lemma meta_key_nonempty_witness :
  meta_key (get_bookmaker_meta (Some "Bet_Right") (Some "Bet Right")) <> "".
Proof. apply meta_key_nonempty. reflexivity. Defined.

(** C6. For every key and title the function returns a record (it has no
    failing path): the display name is the canonical name of the normalized
    key when there is one, otherwise the fallback title, otherwise the raw
    key, otherwise the empty string; the url is the entry of the url table
    for the normalized key, present exactly when the table has one; and
    the two examples of the specification evaluate as written. *)
Theorem get_bookmaker_meta_resolution :
  (forall key title : option string,
     let m := get_bookmaker_meta key title in
     meta_name m = spec_display_name key title
     /\ meta_url m = BOOKMAKER_URLS !! normalize_key key
     /\ (is_Some (meta_url m) <-> normalize_key key ∈ dom BOOKMAKER_URLS))
  /\ get_bookmaker_meta (Some "unknownkey") (Some "Some Title")
     = mkMeta "unknownkey" "Some Title" None
  /\ get_bookmaker_meta (Some "tab") None
     = mkMeta "tab" "TAB" (Some "https://www.tab.com.au/").
Proof.
  split; [|split; reflexivity].
  intros key title m. split; [apply meta_name_spec|].
  split; [reflexivity|].
  unfold m. simpl. symmetry. apply elem_of_dom.
Qed.

End BookmakerProps.

(** ** Order of binary64 values *)

Module FloatOrder.
Import PyNum.

Lemma SFcompare_antisym (x y : spec_float) :
  SFcompare y x = option_map CompOpp (SFcompare x y).
Proof.
  destruct x as [sx|sx| |sx mx ex], y as [sy|sy| |sy my ey]; simpl;
    try reflexivity; try (destruct sx; reflexivity);
    try (destruct sy; reflexivity); try (destruct sx, sy; reflexivity).
  destruct sx, sy; simpl; try reflexivity;
    rewrite (Z.compare_antisym ex ey);
    destruct (ex ?= ey)%Z; simpl; try reflexivity;
    change (Pos.compare_cont Eq my mx) with (Pos.compare my mx);
    change (Pos.compare_cont Eq mx my) with (Pos.compare mx my);
    rewrite (Pos.compare_antisym mx my);
    destruct (mx ?= my)%positive; reflexivity.
Qed.

Lemma SFcompare_some (x y : spec_float) :
  x <> S754_nan -> y <> S754_nan -> exists c, SFcompare x y = Some c.
Proof. destruct x, y; simpl; intros; try congruence; eauto. Qed.

Lemma SFleb_total (x y : spec_float) :
  x <> S754_nan -> y <> S754_nan -> SFltb x y = false -> SFleb y x = true.
Proof.
  intros Hx Hy. unfold SFltb, SFleb. rewrite (SFcompare_antisym x y).
  destruct (SFcompare_some x y Hx Hy) as [c ->]. destruct c; simpl; congruence.
Qed.

Lemma SFleb_trans (x y z : spec_float) :
  SFleb x y = true -> SFleb y z = true -> SFleb x z = true.
Proof.
  unfold SFleb.
  destruct x as [sx|sx| |sx mx ex], y as [sy|sy| |sy my ey],
           z as [sz|sz| |sz mz ez];
    simpl; try congruence;
    try (destruct sx; simpl; congruence);
    try (destruct sy; simpl; congruence);
    try (destruct sz; simpl; congruence);
    try (destruct sx, sy; simpl; congruence);
    try (destruct sx, sz; simpl; congruence);
    try (destruct sy, sz; simpl; congruence);
    try (destruct sx, sy, sz; simpl; congruence).
  change (Pos.compare_cont Eq mx my) with (Pos.compare mx my);
  change (Pos.compare_cont Eq my mz) with (Pos.compare my mz);
  change (Pos.compare_cont Eq mx mz) with (Pos.compare mx mz).
  destruct sx, sy, sz; simpl; try congruence;
  destruct (Z.compare_spec ex ey), (Z.compare_spec ey ez),
           (Z.compare_spec ex ez);
    simpl; try congruence; try lia;
  destruct (Pos.compare_spec mx my), (Pos.compare_spec my mz),
           (Pos.compare_spec mx mz);
    simpl; try congruence; try lia.
Qed.

Lemma is_number_spec (x : float) : is_number x -> Prim2SF x <> S754_nan.
Proof.
  unfold is_number, PrimFloat.is_nan. rewrite FloatAxioms.eqb_spec. intros H E.
  rewrite E in H. discriminate.
Qed.

Lemma leb_refl (x : float) : is_number x -> (x <=? x)%float = true.
Proof.
  unfold is_number, PrimFloat.is_nan. rewrite FloatAxioms.eqb_spec, FloatAxioms.leb_spec.
  unfold SFeqb, SFleb. destruct (SFcompare _ _) as [[]|]; simpl; congruence.
Qed.

Lemma ltb_leb (x y : float) : (x <? y)%float = true -> (x <=? y)%float = true.
Proof.
  rewrite FloatAxioms.ltb_spec, FloatAxioms.leb_spec. unfold SFltb, SFleb.
  destruct (SFcompare _ _) as [[]|]; congruence.
Qed.

Lemma leb_total (x y : float) :
  is_number x -> is_number y ->
  (x <? y)%float = false -> (y <=? x)%float = true.
Proof.
  intros Hx%is_number_spec Hy%is_number_spec. rewrite FloatAxioms.ltb_spec, FloatAxioms.leb_spec.
  now apply SFleb_total.
Qed.

Lemma leb_trans (x y z : float) :
  (x <=? y)%float = true -> (y <=? z)%float = true -> (x <=? z)%float = true.
Proof. rewrite !FloatAxioms.leb_spec. apply SFleb_trans. Qed.

End FloatOrder.

(** ** [max], [min] on a list of prices *)

Module PyNumFacts.
Import PyNum FloatOrder.

Lemma py_max1_in (x : float) (l : list float) : py_max1 x l ∈ x :: l.
Proof.
  revert x. induction l as [|y l IH]; intros x; simpl.
  - apply list_elem_of_here.
  - unfold py_max1 in *. simpl.
    specialize (IH (if (x <? y)%float then y else x)).
    apply elem_of_cons in IH as [IH|IH].
    + rewrite IH. destruct (x <? y)%float;
        [apply list_elem_of_further, list_elem_of_here|apply list_elem_of_here].
    + now do 2 apply list_elem_of_further.
Qed.

Lemma py_min1_in (x : float) (l : list float) : py_min1 x l ∈ x :: l.
Proof.
  revert x. induction l as [|y l IH]; intros x; simpl.
  - apply list_elem_of_here.
  - unfold py_min1 in *. simpl.
    specialize (IH (if (y <? x)%float then y else x)).
    apply elem_of_cons in IH as [IH|IH].
    + rewrite IH. destruct (y <? x)%float;
        [apply list_elem_of_further, list_elem_of_here|apply list_elem_of_here].
    + now do 2 apply list_elem_of_further.
Qed.

Lemma py_max1_upper (x : float) (l : list float) :
  Forall is_number (x :: l) ->
  forall p, p ∈ x :: l -> (p <=? py_max1 x l)%float = true.
Proof.
  revert x. induction l as [|y l IH]; intros x Hn p Hp.
  - apply list_elem_of_singleton in Hp as ->. apply leb_refl.
    now inversion Hn.
  - inversion Hn as [|? ? Hx Hyl]; subst. inversion Hyl as [|? ? Hy Hl]; subst.
    change (py_max1 x (y :: l))
      with (py_max1 (if (x <? y)%float then y else x) l).
    set (m := if (x <? y)%float then y else x).
    assert (Hm : is_number m) by (unfold m; destruct (x <? y)%float; assumption).
    assert (Hxm : (x <=? m)%float = true).
    { unfold m. destruct (x <? y)%float eqn:E;
        [now apply ltb_leb|now apply leb_refl]. }
    assert (Hym : (y <=? m)%float = true).
    { unfold m. destruct (x <? y)%float eqn:E;
        [now apply leb_refl|now apply leb_total]. }
    assert (Hml : forall q, q ∈ m :: l -> (q <=? py_max1 m l)%float = true)
      by (apply IH; now constructor).
    assert (Hmm : (m <=? py_max1 m l)%float = true)
      by apply Hml, list_elem_of_here.
    apply elem_of_cons in Hp as [->|Hp];
      [now apply leb_trans with m|].
    apply elem_of_cons in Hp as [->|Hp];
      [now apply leb_trans with m|].
    now apply Hml, list_elem_of_further.
Qed.

Lemma py_min1_lower (x : float) (l : list float) :
  Forall is_number (x :: l) ->
  forall p, p ∈ x :: l -> (py_min1 x l <=? p)%float = true.
Proof.
  revert x. induction l as [|y l IH]; intros x Hn p Hp.
  - apply list_elem_of_singleton in Hp as ->. apply leb_refl.
    now inversion Hn.
  - inversion Hn as [|? ? Hx Hyl]; subst. inversion Hyl as [|? ? Hy Hl]; subst.
    change (py_min1 x (y :: l))
      with (py_min1 (if (y <? x)%float then y else x) l).
    set (m := if (y <? x)%float then y else x).
    assert (Hm : is_number m) by (unfold m; destruct (y <? x)%float; assumption).
    assert (Hmx : (m <=? x)%float = true).
    { unfold m. destruct (y <? x)%float eqn:E;
        [now apply ltb_leb|now apply leb_refl]. }
    assert (Hmy : (m <=? y)%float = true).
    { unfold m. destruct (y <? x)%float eqn:E;
        [now apply leb_refl|now apply leb_total]. }
    assert (Hml : forall q, q ∈ m :: l -> (py_min1 m l <=? q)%float = true)
      by (apply IH; now constructor).
    assert (Hmm : (py_min1 m l <=? m)%float = true)
      by apply Hml, list_elem_of_here.
    apply elem_of_cons in Hp as [->|Hp];
      [now apply leb_trans with m|].
    apply elem_of_cons in Hp as [->|Hp];
      [now apply leb_trans with m|].
    now apply Hml, list_elem_of_further.
Qed.

(** A coefficient of any length converts as the decimal it stands for:
    1.85000000000000000000 and 1.85 are the same float. *)
Example ex_py_float_long_coefficient :
  py_float (mkDecimal 185000000000000000000 (-20))
  = py_float (mkDecimal 185 (-2))
  /\ Prim2SF (py_float (mkDecimal 185 (-2)))
     = S754_finite false 8331659310635418 (-52).
Proof. vm_compute. split; reflexivity. Qed.

Lemma float_or_none_falsy (c : option Decimal) :
  truthy c = false -> float_or_none c = None.
Proof. unfold float_or_none. now intros ->. Qed.

End PyNumFacts.

(** ** The stable sort *)

Module PySortFacts.
Import PySort.

Section Facts.
Context {A : Type} (le : A -> A -> bool).

Lemma insert_by_perm (x : A) (l : list A) : insert_by le x l ≡ₚ x :: l.
Proof.
  induction l as [|y l IH]; simpl; [reflexivity|].
  destruct (le x y); [reflexivity|].
  rewrite IH. apply Permutation_swap.
Qed.

Lemma sort_by_perm (l : list A) : sort_by le l ≡ₚ l.
Proof.
  induction l as [|x l IH]; simpl; [reflexivity|].
  now rewrite insert_by_perm, IH.
Qed.

Lemma sort_by_elem_of (x : A) (l : list A) : x ∈ sort_by le l <-> x ∈ l.
Proof. now rewrite sort_by_perm. Qed.

Hypothesis le_total : forall a b, le a b = false -> le b a = true.

Lemma insert_by_HdRel (a x : A) (l : list A) :
  le_rel le a x -> HdRel (le_rel le) a l -> HdRel (le_rel le) a (insert_by le x l).
Proof.
  intros Hax Hl. destruct l as [|y l]; simpl; [now constructor|].
  destruct (le x y); constructor; [assumption|now inversion Hl].
Qed.

Lemma insert_by_Sorted (x : A) (l : list A) :
  Sorted (le_rel le) l -> Sorted (le_rel le) (insert_by le x l).
Proof.
  induction l as [|y l IH]; simpl; intros Hs.
  - repeat constructor.
  - destruct (le x y) eqn:E.
    + constructor; [assumption|now constructor].
    + inversion Hs as [|? ? Hl Hy]; subst.
      constructor; [now apply IH|].
      apply insert_by_HdRel; [now apply le_total|assumption].
Qed.

Lemma sort_by_Sorted (l : list A) : Sorted (le_rel le) (sort_by le l).
Proof.
  induction l as [|x l IH]; simpl; [constructor|now apply insert_by_Sorted].
Qed.

Lemma sort_by_StronglySorted (l : list A) :
  (forall a b c, le a b = true -> le b c = true -> le a c = true) ->
  StronglySorted (le_rel le) (sort_by le l).
Proof.
  intros Htrans. apply Sorted_StronglySorted; [|apply sort_by_Sorted].
  intros a b c. apply Htrans.
Qed.
End Facts.

Lemma StronglySorted_weaken {A : Type} (R S : A -> A -> Prop) (l : list A) :
  (forall a b, R a b -> S a b) -> StronglySorted R l -> StronglySorted S l.
Proof.
  intros HRS. induction 1 as [|a l _ IH Ha]; constructor; [assumption|].
  eapply Forall_impl; [exact Ha|]. intros b. apply HRS.
Qed.

(** Stability: the elements of a class [P] whose members are pairwise
    [le] keep their relative order. *)
Section Stable.
Context {A : Type} (le : A -> A -> bool).
Context (P : A -> Prop) `{!forall a, Decision (P a)}.
Hypothesis class_le : forall a b, P a -> P b -> le a b = true.


End Stable.

End PySortFacts.

(** ** main.py *)

Module MainProps.
Import PyNum PyNumFacts FloatOrder Main MainSpec.




(** The loop of [get_event_detail] collects the non-absent prices. *)
Lemma collect_prices_spec (sel : Quotes -> option Decimal) (rows : list OddsRow) :
  collect_prices sel rows = non_absent_prices sel rows.
Proof.
  unfold non_absent_prices. induction rows as [|row rows IH]; simpl;
    [reflexivity|].
  destruct (float_or_none (sel (quotes row))); simpl; now rewrite IH.
Qed.

Example ex_rows_abc :
  get_event_detail "E1" Samples.rows_abc
  = Return
      {| ed_event_id := "E1"; ed_sport_key := "aussierules_afl";
         ed_home_team := Some "Lions"; ed_away_team := Some "Swans";
         ed_commence_time := 5000;
         ed_current_odds := List.map bookmaker_odds_of Samples.rows_abc;
         ed_odds_comparison :=
           {| h2h_home := Some {| best := py_float (mkDecimal 210 (-2));
                                  worst := py_float (mkDecimal 195 (-2));
                                  average := py_float (mkDecimal 2025 (-3)) |};
              h2h_away := None |} |}.
Proof. vm_compute. reflexivity. Qed.






(** The divisor is the number of prices, exactly (checked for up to 512
    prices). *)
Example ex_count_of_exact :
  forallb
    (fun n =>
       match exact_value (count_of (repeat 0%float n)) with
       | Some q => Qeq_bool q (inject_Z (Z.of_nat n))
       | None => false
       end)
    (seq 0 513)
  = true.
Proof. vm_compute. reflexivity. Qed.

(** The arithmetic mean is what [average] is when no addition rounds:
    quotes of 1.50 and 2.50 average to 2.0. *)
Example ex_mean_150_250 :
  match get_event_detail "E1" Samples.rows_150_250 with
  | Return d =>
      match h2h_home (ed_odds_comparison d) with
      | Some c =>
          is_arithmetic_mean
            (non_absent_prices home_h2h_price Samples.rows_150_250)
            (average c) = true
          /\ average c = 2%float
      | None => False
      end
  | _ => False
  end.
Proof. vm_compute. split; reflexivity. Qed.

(** Three quotes of 1.60: the arithmetic mean is the price itself, the
    computed average is another float. *)
Example ex_rows_160_mean :
  let prices := non_absent_prices home_h2h_price Samples.rows_160 in
  is_arithmetic_mean prices (py_float (mkDecimal 160 (-2))) = true
  /\ is_arithmetic_mean prices (binary64_mean prices) = false.
Proof. vm_compute. split; reflexivity. Qed.




(** C10 as stated fails: three bookmakers quoting 1.60 give the average
    1.6000000000000003, above [best]. *)
Lemma average_exceeds_best :
  ~ (forall (eid : string) (rows : list OddsRow) (d : EventDetail),
       get_event_detail eid rows = Return d ->
       side_ordered (non_absent_prices home_h2h_price rows)
                    (h2h_home (ed_odds_comparison d))
       /\ side_ordered (non_absent_prices away_h2h_price rows)
                       (h2h_away (ed_odds_comparison d))).
Proof.
  intros H.
  destruct (H "E1" Samples.rows_160 _ eq_refl) as [Hhome _].
  destruct (Hhome _ eq_refl) as (_ & Habove & _).
  vm_compute in Habove. discriminate.
Qed.

(** The same list under the compensated summation of CPython 3.12. *)
Example ex_rows_160_compensated :
  let prices := non_absent_prices home_h2h_price Samples.rows_160 in
  py_sum_compensated prices = py_sum prices
  /\ (py_max1 (py_float (mkDecimal 160 (-2))) [] <? mean prices)%float = true.
Proof. vm_compute. split; reflexivity. Qed.

Lemma comparison_of_side_bounded (prices : list float) :
  Forall is_number prices -> side_bounded prices (comparison_of prices).
Proof.
  intros Hn c Hc. destruct prices as [|x l]; [discriminate|].
  injection Hc as <-. cbn [best worst average].
  pose proof (py_max1_in x l) as Hmax. pose proof (py_min1_in x l) as Hmin.
  split; [assumption|]. split; [assumption|].
  split; [now apply py_min1_lower|].
  split; [|reflexivity].
  intros p Hp. split; [now apply py_min1_lower|now apply py_max1_upper].
Qed.

(** C10, amended. Whenever a side of [odds_comparison] is present, [best]
    and [worst] are elements of the collected price list, [worst <= best],
    every collected price lies between them, and [average] is the binary64
    mean of the list. *)
Theorem comparison_bounds (eid : string) (rows : list OddsRow) (d : EventDetail) :
  get_event_detail eid rows = Return d ->
  Forall is_number (non_absent_prices home_h2h_price rows) ->
  Forall is_number (non_absent_prices away_h2h_price rows) ->
  side_bounded (non_absent_prices home_h2h_price rows)
               (h2h_home (ed_odds_comparison d))
  /\ side_bounded (non_absent_prices away_h2h_price rows)
                  (h2h_away (ed_odds_comparison d)).
Proof.
  intros Hd Hh Ha. destruct rows as [|first_row rest]; [discriminate|].
  injection Hd as <-. cbn [ed_odds_comparison h2h_home h2h_away].
  rewrite !collect_prices_spec.
  split; now apply comparison_of_side_bounded.
Qed.

Lemma comparison_bounds_witness :
  exists d,
    get_event_detail "E1" Samples.rows_160 = Return d
    /\ side_bounded (non_absent_prices home_h2h_price Samples.rows_160)
                    (h2h_home (ed_odds_comparison d))
    /\ side_bounded (non_absent_prices away_h2h_price Samples.rows_160)
                    (h2h_away (ed_odds_comparison d)).
Proof.
  eexists. split; [reflexivity|].
  apply (comparison_bounds "E1" Samples.rows_160).
  - reflexivity.
  - repeat constructor.
  - constructor.
Defined.

(** *** Where the outputs of the event list come from *)

Section EventList.
Variable sport : string.
Variable all_rows : list SportEventRow.
Let from_row := from_row all_rows.
Let all_from_rows := all_from_rows all_rows.



End EventList.


Lemma history_response_points (eid : string) (market_type : MarketType)
    (bookmaker home away : option string) (rows : list OddsRow)
    (h : OddsHistory) :
  history_response eid market_type bookmaker home away rows = Return h ->
  oh_event_id h = eid
  /\ oh_history h = List.map (history_point market_type) rows.
Proof. destruct rows; intros [= <-]; split; reflexivity. Qed.

Lemma get_event_detail_current_odds (eid : string) (rows : list OddsRow)
    (d : EventDetail) :
  get_event_detail eid rows = Return d ->
  ed_current_odds d = List.map bookmaker_odds_of rows.
Proof.
  destruct rows as [|first_row rest]; [discriminate|]. now intros [= <-].
Qed.


Example ex_zero_price_absent :
  match get_sport_events "aussierules_afl" Samples.event_rows_e1 with
  | Return [ev] =>
      List.map (fun bo => (bo_bookmaker_key bo, bo_h2h_home bo, bo_h2h_away bo))
               (ev_bookmakers ev)
      = [ ("a", None, Some (py_float (mkDecimal 175 (-2))));
          ("b", Some (py_float (mkDecimal 195 (-2))), None) ]
  | _ => False
  end.
Proof. vm_compute. reflexivity. Qed.


(** *** Not found against empty *)

Lemma filter_none {A : Type} (f : A -> bool) (l : list A) :
  (forall x, x ∈ l -> f x = false) -> List.filter f l = [].
Proof.
  induction l as [|x l IH]; intros H; simpl; [reflexivity|].
  rewrite (H x (list_elem_of_here _ _)).
  apply IH. intros y Hy. now apply H, list_elem_of_further.
Qed.

Lemma filter_some {A : Type} (f : A -> bool) (l : list A) (x : A) :
  x ∈ l -> f x = true -> List.filter f l <> [].
Proof.
  intros Hx Hf E.
  assert (Hin : In x (List.filter f l))
    by (apply filter_In; split; [now apply list_elem_of_In|assumption]).
  rewrite E in Hin. exact Hin.
Qed.

Lemma info_query_none (table : list OddsRow) (eid : string) :
  (forall row, row ∈ table -> event_id row <> eid) ->
  info_query table eid = None.
Proof.
  intros H. unfold info_query. rewrite filter_none; [reflexivity|].
  intros row Hrow. apply String.eqb_neq. now apply H.
Qed.

Lemma info_query_some (table : list OddsRow) (eid : string) (row : OddsRow) :
  row ∈ table -> event_id row = eid ->
  exists info, info_query table eid = Some info.
Proof.
  intros Hrow Hid. unfold info_query.
  destruct (List.filter _ table) as [|r rs] eqn:E; [|eauto].
  exfalso. eapply filter_some; [exact Hrow| |exact E].
  now apply String.eqb_eq.
Qed.

Lemma history_query_none (leb : string -> string -> bool)
    (spliced : list OddsRow -> Z -> string -> string -> Z -> fetched)
    (table : list OddsRow) (now : Z) (eid : string)
    (bookmaker : option string) (hours : Z) :
  sql_plain bookmaker = true ->
  (forall row, row ∈ table -> event_id row = eid ->
               in_window now hours row = false) ->
  history_query leb spliced table now eid bookmaker hours = Rows [].
Proof.
  intros Hplain H. unfold history_query. rewrite Hplain.
  rewrite filter_none; [reflexivity|].
  intros row Hrow. unfold history_where.
  destruct (String.eqb_spec (event_id row) eid) as [Hid|]; [|reflexivity].
  now rewrite (H row Hrow Hid).
Qed.

Lemma history_query_plain (leb : string -> string -> bool)
    (spliced : list OddsRow -> Z -> string -> string -> Z -> fetched)
    (table : list OddsRow) (now : Z) (eid : string)
    (bookmaker : option string) (hours : Z) :
  sql_plain bookmaker = true ->
  exists rows, history_query leb spliced table now eid bookmaker hours = Rows rows.
Proof. intros Hplain. unfold history_query. rewrite Hplain. eauto. Qed.

(** X24. The history handler raises 404 for an event id that no stored row
    carries, whatever the window and the bookmaker filter; for an event id
    that has rows, and a bookmaker filter that is a plain value, it
    returns, and when none of these rows lies in the look-back window the
    returned history is the empty list. *)
Theorem history_not_found_or_empty (leb : string -> string -> bool)
    (spliced : list OddsRow -> Z -> string -> string -> Z -> fetched)
    (table : list OddsRow) (now : Z) (eid : string) (market_type : MarketType)
    (bookmaker : option string) (hours : Z) :
  ((forall row, row ∈ table -> event_id row <> eid) ->
   get_event_history leb spliced table now eid market_type bookmaker hours
   = HTTPException 404 "Event not found")
  /\ ((exists row, row ∈ table /\ event_id row = eid) ->
      sql_plain bookmaker = true ->
      exists h,
        get_event_history leb spliced table now eid market_type bookmaker hours
        = Return h
        /\ oh_event_id h = eid
        /\ ((forall row, row ∈ table -> event_id row = eid ->
                         in_window now hours row = false) ->
            oh_history h = [])).
Proof.
  split.
  - intros Hnone. unfold get_event_history.
    now rewrite (info_query_none table eid Hnone).
  - intros (row & Hrow & Hid) Hplain. unfold get_event_history.
    destruct (info_query_some table eid row Hrow Hid) as [[home away] ->].
    destruct (history_query_plain leb spliced table now eid bookmaker hours
                Hplain) as [rows Hq].
    rewrite Hq.
    destruct (history_response eid market_type bookmaker home away rows)
      as [h|] eqn:Hh; [|destruct rows; discriminate].
    exists h. split; [reflexivity|].
    destruct (history_response_points _ _ _ _ _ _ _ Hh) as [Hid' Hhist].
    split; [exact Hid'|].
    intros Hout. rewrite Hhist.
    rewrite (history_query_none leb spliced _ _ _ _ _ Hplain Hout) in Hq.
    now injection Hq as <-.
Qed.

Lemma history_not_found_or_empty_witness :
  get_event_history String.leb (fun _ _ _ _ _ => DriverError "syntax")
    Samples.table_e1 (1000 + 3600 * 72) "E9" Mh2h None 72
  = HTTPException 404 "Event not found"
  /\ exists h,
       get_event_history String.leb (fun _ _ _ _ _ => DriverError "syntax")
         Samples.table_e1 (1000 + 3600 * 72) "E1" Mh2h (Some "a") 72
       = Return h
       /\ oh_event_id h = "E1"
       /\ oh_history h = [].
Proof.
  pose proof (history_not_found_or_empty String.leb
                (fun _ _ _ _ _ => DriverError "syntax") Samples.table_e1
                (1000 + 3600 * 72) "E9" Mh2h None 72) as [H404 _].
  pose proof (history_not_found_or_empty String.leb
                (fun _ _ _ _ _ => DriverError "syntax") Samples.table_e1
                (1000 + 3600 * 72) "E1" Mh2h (Some "a") 72) as [_ Hempty].
  split.
  - apply H404. intros row Hrow.
    repeat (apply elem_of_cons in Hrow as [->|Hrow]; [discriminate|]).
    now apply elem_of_nil in Hrow.
  - destruct Hempty as (h & Hh & Hid & Hnil).
    + exists (Samples.h2h_row "a" 100 (Samples.dec 210 (-2)) (Samples.dec 175 (-2))).
      split; [apply list_elem_of_here|reflexivity].
    + reflexivity.
    + exists h. split; [exact Hh|]. split; [exact Hid|].
      apply Hnil. intros row Hrow _.
      repeat (apply elem_of_cons in Hrow as [->|Hrow]; [reflexivity|]).
      now apply elem_of_nil in Hrow.
Defined.

(** C7. The defect behind the claim's failure: [bookmaker] is spliced into
    the SQL text between two apostrophes, where the event id and the hours
    are bound as parameters. For a value that is not a plain literal the
    store answers to another text, and when it rejects that text the
    handler raises [HTTPException] with status 500 for an event that
    exists, whatever its rows and the window are, where the claim
    promises a returned history. *)
Theorem history_spliced_filter_is_500 (leb : string -> string -> bool)
    (spliced : list OddsRow -> Z -> string -> string -> Z -> fetched)
    (table : list OddsRow) (now : Z) (eid : string) (market_type : MarketType)
    (bookmaker : option string) (hours : Z) (message : string) :
  (exists row, row ∈ table /\ event_id row = eid) ->
  sql_plain bookmaker = false ->
  spliced table now eid (default "" bookmaker) hours = DriverError message ->
  get_event_history leb spliced table now eid market_type bookmaker hours
  = HTTPException 500 message.
Proof.
  intros (row & Hrow & Hid) Hplain Hstore. unfold get_event_history.
  destruct (info_query_some table eid row Hrow Hid) as [[home away] ->].
  unfold history_query. now rewrite Hplain, Hstore.
Qed.

Lemma history_spliced_filter_is_500_witness :
  Forall (fun row => in_window (1000 + 3600 * 72) 72 row = false)
         Samples.table_e1
  /\ get_event_history String.leb Samples.store_unclosed_quote
       Samples.table_e1 (1000 + 3600 * 72) "E1" Mh2h (Some "it's") 72
     = HTTPException 500 "Unclosed quotation mark after the character string"
  /\ exists h,
       get_event_history String.leb Samples.store_unclosed_quote
         Samples.table_e1 (1000 + 3600 * 72) "E1" Mh2h (Some "its") 72
       = Return h
       /\ oh_history h = [].
Proof.
  split; [repeat constructor|]. split.
  - apply (history_spliced_filter_is_500 String.leb
             Samples.store_unclosed_quote Samples.table_e1
             (1000 + 3600 * 72) "E1" Mh2h (Some "it's") 72).
    + exists (Samples.h2h_row "a" 100 (Samples.dec 210 (-2))
                (Samples.dec 175 (-2))).
      split; [apply list_elem_of_here|reflexivity].
    + reflexivity.
    + reflexivity.
  - eexists. split; reflexivity.
Defined.

End MainProps.

(** ** routes_odds_table.py *)

Module OddsTableProps.
Import Py OddsTable OddsTableSpec.

(** *** The upstream failure path *)

Lemma odds_table_error (py_repr : json -> string) (r : UpstreamResponse) :
  up_status_code r <> 200%Z ->
  odds_table py_repr r
  = Ok {| content := ErrorContent (up_text r);
          status_code := up_status_code r |}.
Proof.
  intros Hne. unfold odds_table.
  destruct (Z.eqb_spec (up_status_code r) 200); [contradiction|reflexivity].
Qed.

Example ex_upstream_401 :
  odds_table Samples.repr_sample Samples.upstream_401
  = Ok {| content := ErrorContent "unauthorized"; status_code := 401 |}
  /\ body Samples.repr_sample
       {| content := ErrorContent "unauthorized"; status_code := 401 |}
     = "{" ++ JsonEnc.string_literal "error" ++ ":"
       ++ JsonEnc.string_literal "unauthorized" ++ "}".
Proof. split; reflexivity. Qed.

(** C1 as stated fails: for the upstream status 401 with the body
    [unauthorized] the response body is the JSON object
    [{"error":"unauthorized"}], not the upstream body. *)
Lemma error_body_not_verbatim :
  ~ (forall (py_repr : json -> string) (r : UpstreamResponse),
       is_success (up_status_code r) = false -> verbatim_error py_repr r).
Proof.
  intros H.
  destruct (H Samples.repr_sample Samples.upstream_401 eq_refl)
    as (resp & Hresp & _ & Hbody).
  injection Hresp as <-. vm_compute in Hbody. discriminate.
Qed.

Lemma length_app (s t : string) :
  String.length (s ++ t) = String.length s + String.length t.
Proof. induction s as [|a s IH]; simpl; [reflexivity|now rewrite IH]. Qed.

Lemma escape_char_length (a : ascii) :
  1 <= String.length (JsonEnc.escape_char a).
Proof. destruct a as [[] [] [] [] [] [] [] []]; vm_compute; lia. Qed.

Lemma escape_length (s : string) :
  String.length s <= String.length (JsonEnc.escape s).
Proof.
  induction s as [|a s IH]; cbn [JsonEnc.escape String.length]; [lia|].
  rewrite length_app. pose proof (escape_char_length a). lia.
Qed.

(** The encoded error content is at least twelve characters longer than
    the text it wraps. *)
Lemma error_body_length (py_repr : json -> string) (text : string) (st : Z) :
  String.length text + 12
  <= String.length
       (body py_repr {| content := ErrorContent text; status_code := st |}).
Proof.
  unfold body. cbn [content content_json JsonEnc.dumps List.map PyStr.join].
  unfold JsonEnc.string_literal. rewrite !length_app.
  pose proof (escape_length text) as Hlen.
  set (n := String.length (JsonEnc.escape text)) in *.
  set (m := String.length text) in *. clearbody n m.
  vm_compute String.length. lia.
Qed.

(** C1, amended. For an upstream status other than 200 the handler returns
    the upstream status code, and its body is the JSON object with the one
    member ["error"] whose value is the upstream body text, which is never
    the upstream body itself. *)
Theorem upstream_error_wrapped (py_repr : json -> string) (r : UpstreamResponse) :
  up_status_code r <> 200%Z ->
  exists resp,
    odds_table py_repr r = Ok resp
    /\ status_code resp = up_status_code r
    /\ content resp = ErrorContent (up_text r)
    /\ content_json (content resp) = JObj [("error", JStr (up_text r))]
    /\ body py_repr resp
       = "{" ++ JsonEnc.string_literal "error" ++ ":"
         ++ JsonEnc.string_literal (up_text r) ++ "}"
    /\ body py_repr resp <> up_text r.
Proof.
  intros Hne. eexists. split; [now apply odds_table_error|].
  repeat split. intros E.
  pose proof (error_body_length py_repr (up_text r) (up_status_code r)) as Hlen.
  rewrite E in Hlen. lia.
Qed.

Lemma upstream_error_wrapped_witness :
  exists resp,
    odds_table Samples.repr_sample Samples.upstream_401 = Ok resp
    /\ status_code resp = 401%Z
    /\ content resp = ErrorContent "unauthorized"
    /\ content_json (content resp) = JObj [("error", JStr "unauthorized")]
    /\ body Samples.repr_sample resp
       = "{" ++ JsonEnc.string_literal "error" ++ ":"
         ++ JsonEnc.string_literal "unauthorized" ++ "}"
    /\ body Samples.repr_sample resp <> "unauthorized".
Proof.
  apply (upstream_error_wrapped Samples.repr_sample Samples.upstream_401).
  discriminate.
Defined.

(** *** The market formatters *)

Lemma try_except_returns {A : Type} (body : result A) (a : A) :
  exists x, try_except body (Ok a) = Ok x.
Proof. destruct body; simpl; eauto. Qed.


Lemma get_not_object (v : json) (k : string) (dflt : json) :
  is_object v = false -> get v k dflt = Raise AttributeError.
Proof. destruct v; simpl; congruence. Qed.

Section Formatters.
Variable py_repr : json -> string.













Lemma traverse_inv {A B : Type} (f : A -> result B) (l : list A)
    (ys : list B) :
  traverse f l = Ok ys -> Forall2 (fun x y => f x = Ok y) l ys.
Proof.
  revert ys. induction l as [|x l IH]; simpl; intros ys.
  - intros [= <-]. constructor.
  - destruct (f x) as [y|] eqn:Hy; simpl; [|discriminate].
    destruct (traverse f l) as [ys'|]; simpl; [|discriminate].
    intros [= <-]. constructor; [assumption|now apply IH].
Qed.
End Formatters.


Example ex_market_odd_values :
  _format_h2h Samples.repr_sample Samples.market_odd_values = Ok "None: True"
  /\ odds_table Samples.repr_sample Samples.upstream_null_markets
     = Raise TypeError.
Proof. split; reflexivity. Qed.



(** *** The order of the rows *)













Example ex_upstream_200_order :
  match odds_table Samples.repr_sample Samples.upstream_200 with
  | Ok {| content := TableContent _ [m] |} =>
      List.map (fun row => (row_bookmaker row, row_h2h row)) (m_rows m)
      = [ (Some "betr", ""); (Some "Neds", "");
          (Some "TAB", "Lions: 2 / Swans: 3"); (Some "TAB", "") ]
  | _ => False
  end.
Proof. vm_compute. reflexivity. Qed.

End OddsTableProps.

(* ===================================================================== *)
(** * Further properties                                                  *)
(* ===================================================================== *)

(** ** The bookmaker registry, continued *)

Module BookmakerMore.
Import PyStr PyStrFacts Bookmaker BookmakerProps.

Lemma nonempty_lower (s : string) : nonempty (lower s) = nonempty s.
Proof. now destruct s. Qed.

Lemma alias_target_nonempty (a c : string) :
  ALIASES !! a = Some c -> nonempty c = true.
Proof.
  intros H%alias_items. unfold ALIASES_items in H.
  repeat (apply elem_of_cons in H as [H|H]; [injection H as -> ->; reflexivity|]).
  now apply elem_of_nil in H.
Qed.

Lemma alias_target_not_alias (a c : string) :
  ALIASES !! a = Some c -> ALIASES !! c = None.
Proof.
  intros H%alias_items. unfold ALIASES_items in H.
  repeat (apply elem_of_cons in H as [H|H];
          [injection H as -> ->; vm_compute; reflexivity|]).
  now apply elem_of_nil in H.
Qed.

(** [normalize_key] on a key that is given and not empty. *)
Lemma normalize_key_some (s : string) :
  nonempty s = true ->
  normalize_key (Some s)
  = default (lower (strip s)) (ALIASES !! lower (strip s)).
Proof. unfold normalize_key. simpl. now intros ->. Qed.

(** X1. Normalization does not see the case of the key nor the whitespace
    around it. *)
Theorem normalize_key_case_space_insensitive (s : string) :
  normalize_key (Some (lower s)) = normalize_key (Some s)
  /\ normalize_key (Some (strip s)) = normalize_key (Some s).
Proof.
  destruct (nonempty s) eqn:Hs.
  2: { apply nonempty_false in Hs as ->. split; reflexivity. }
  rewrite (normalize_key_some s Hs). split.
  - rewrite normalize_key_some by now rewrite nonempty_lower.
    now rewrite <- lower_strip, lower_idem.
  - destruct (nonempty (strip s)) eqn:Hst.
    + rewrite (normalize_key_some _ Hst). now rewrite strip_idem.
    + apply nonempty_false in Hst as ->. reflexivity.
Qed.

(** X2. What [normalize_key] returns is never an alias, and is already
    stripped and in lower case. *)
Theorem normalize_key_canonical_form (key : option string) :
  ALIASES !! normalize_key key = None
  /\ lower (strip (normalize_key key)) = normalize_key key.
Proof.
  destruct (truthy key) eqn:Ht.
  2: { rewrite (normalize_key_falsy key Ht). split; reflexivity. }
  destruct key as [s|]; [|discriminate]. simpl in Ht.
  rewrite (normalize_key_some s Ht).
  destruct (ALIASES !! lower (strip s)) as [c|] eqn:Hk; simpl.
  - split; [exact (alias_target_not_alias _ _ Hk)|].
    apply alias_items in Hk. unfold ALIASES_items in Hk.
    repeat (apply elem_of_cons in Hk as [Hk|Hk];
            [injection Hk as _ ->; reflexivity|]).
    now apply elem_of_nil in Hk.
  - split; [exact Hk|apply lower_strip_fixed].
Qed.

Lemma normalize_key_nonempty (s : string) :
  nonempty (strip s) = true -> nonempty (normalize_key (Some s)) = true.
Proof.
  intros Hst. assert (Hs : nonempty s = true).
  { destruct s; [discriminate|reflexivity]. }
  rewrite (normalize_key_some s Hs).
  destruct (ALIASES !! lower (strip s)) as [c|] eqn:Hk; simpl.
  - exact (alias_target_nonempty _ _ Hk).
  - now rewrite nonempty_lower.
Qed.

(** X3. Two spellings of a key that normalize to the same non-empty key
    resolve to the same record, provided a title is given or the key has a
    canonical name. *)
Theorem same_bookmaker_same_meta (k1 k2 title : option string) :
  normalize_key k1 = normalize_key k2 ->
  nonempty (normalize_key k1) = true ->
  truthy title = true \/ is_Some (CANONICAL_NAME !! normalize_key k1) ->
  get_bookmaker_meta k1 title = get_bookmaker_meta k2 title.
Proof.
  intros Heq Hne Hname. unfold get_bookmaker_meta. rewrite <- Heq.
  rewrite !(or_str_some_nonempty _ _ Hne). f_equal.
  destruct (CANONICAL_NAME !! normalize_key k1) as [c|] eqn:Hc.
  - now rewrite !(or_str_some_nonempty c _ (canonical_name_nonempty _ _ Hc)).
  - destruct Hname as [Ht|[c Hc']]; [|discriminate]. simpl.
    rewrite !(or_str_spec title), Ht. reflexivity.
Qed.

Lemma same_bookmaker_same_meta_witness :
  get_bookmaker_meta (Some " Bet_Right") (Some "BetRight")
  = get_bookmaker_meta (Some "betright") (Some "BetRight").
Proof.
  apply same_bookmaker_same_meta; [reflexivity|reflexivity|left; reflexivity].
Defined.

(** X4. The [key] field of the result is the normalized key, a fixed point
    of normalization, unless the input key consists of whitespace only:
    such a key is returned as it is, although it normalizes to the empty
    string. *)
Theorem meta_key_normalized_unless_blank (key title : option string) :
  (truthy key = false \/ nonempty (strip (default "" key)) = true ->
   meta_key (get_bookmaker_meta key title) = normalize_key key
   /\ normalize_key (Some (meta_key (get_bookmaker_meta key title)))
      = meta_key (get_bookmaker_meta key title))
  /\ (truthy key = true -> strip (default "" key) = "" ->
      meta_key (get_bookmaker_meta key title) = default "" key
      /\ normalize_key key = "").
Proof.
  split.
  - intros Hkey.
    assert (Hmk : meta_key (get_bookmaker_meta key title) = normalize_key key).
    { unfold get_bookmaker_meta. cbn [meta_key].
      destruct Hkey as [Hf|Hst].
      - rewrite (normalize_key_falsy key Hf). simpl.
        rewrite (or_str_spec key), Hf. reflexivity.
      - destruct key as [s|]; [|discriminate]. simpl in Hst.
        apply or_str_some_nonempty, normalize_key_nonempty, Hst. }
    rewrite Hmk. split; [reflexivity|apply normalize_key_idempotent].
  - intros Ht Hst. destruct key as [s|]; [|discriminate]. simpl in *.
    assert (Hnk : normalize_key (Some s) = "").
    { rewrite (normalize_key_some s Ht), Hst. reflexivity. }
    unfold get_bookmaker_meta. cbn [meta_key]. rewrite Hnk. simpl.
    now rewrite Ht.
Qed.

Lemma meta_key_normalized_unless_blank_witness :
  (meta_key (get_bookmaker_meta (Some " TAB_au ") None) = "tab"
   /\ normalize_key (Some "tab") = "tab")
  /\ (meta_key (get_bookmaker_meta (Some "  ") None) = "  "
      /\ normalize_key (Some "  ") = "").
Proof.
  split.
  - apply (proj1 (meta_key_normalized_unless_blank (Some " TAB_au ") None)).
    right. reflexivity.
  - apply (proj2 (meta_key_normalized_unless_blank (Some "  ") None));
      reflexivity.
Defined.

(** X5. The display name is empty exactly when neither a key nor a title
    is given. *)
Theorem meta_name_empty_iff (key title : option string) :
  meta_name (get_bookmaker_meta key title) = ""
  <-> truthy key = false /\ truthy title = false.
Proof.
  rewrite meta_name_spec. unfold spec_display_name. split.
  - destruct (CANONICAL_NAME !! normalize_key key) as [c|] eqn:Hc.
    + intros ->. now apply canonical_name_nonempty in Hc.
    + destruct title as [t|], key as [k|]; simpl;
        try destruct (nonempty t) eqn:Et; try destruct (nonempty k) eqn:Ek;
        simpl; intros E; subst; try discriminate; auto.
  - intros [Hk Ht]. rewrite (normalize_key_falsy key Hk), Hk, Ht. reflexivity.
Qed.

(** X6. The three tables agree: every alias resolves to a key that has a
    url, every key with a canonical name has a url, and every key of the
    url table is a normalized key, so that a lookup can reach it. *)
Theorem registry_tables_consistent :
  (forall a c : string,
     ALIASES !! a = Some c -> is_Some (BOOKMAKER_URLS !! c))
  /\ (forall k n : string,
        CANONICAL_NAME !! k = Some n -> is_Some (BOOKMAKER_URLS !! k))
  /\ (forall k u : string,
        BOOKMAKER_URLS !! k = Some u -> normalize_key (Some k) = k).
Proof.
  split; [|split].
  - intros a c H%alias_items. unfold ALIASES_items in H.
    repeat (apply elem_of_cons in H as [H|H];
            [injection H as -> ->; vm_compute; eauto|]).
    now apply elem_of_nil in H.
  - intros k n H%elem_of_list_to_map_2.
    repeat (apply elem_of_cons in H as [H|H];
            [injection H as -> ->; vm_compute; eauto|]).
    now apply elem_of_nil in H.
  - intros k u H%elem_of_list_to_map_2.
    repeat (apply elem_of_cons in H as [H|H];
            [injection H as -> ->; vm_compute; reflexivity|]).
    now apply elem_of_nil in H.
Qed.

Lemma registry_tables_consistent_witness :
  is_Some (BOOKMAKER_URLS !! "pointsbetau")
  /\ normalize_key (Some "tabtouch") = "tabtouch".
Proof.
  destruct registry_tables_consistent as (Ha & _ & Hu). split.
  - apply (Ha "pointsbet"). reflexivity.
  - apply (Hu "tabtouch" "https://www.tabtouch.com.au/"). reflexivity.
Defined.

End BookmakerMore.

(** ** The odds table, continued *)

Module OddsTableMore.
Import Py OddsTable OddsTableSpec FormatSpec OddsTableProps.

(** *** [_pick_market] *)

Lemma market_has_key_get (key : string) (members : list (string * json)) :
  eq_str (default JNull (assoc "key" members)) key
  = market_has_key key (JObj members).
Proof. simpl. now destruct (assoc "key" members). Qed.

Lemma pick_loop_skip (pre rest : list json) (key : string) :
  forallb is_object pre = true ->
  existsb (market_has_key key) pre = false ->
  pick_loop (pre ++ rest) key = pick_loop rest key.
Proof.
  induction pre as [|m pre IH]; [reflexivity|].
  cbn [forallb existsb]. intros [Hm Hpre]%andb_prop [Hk Hno]%orb_false_elim.
  destruct m as [| | | | |members]; try discriminate.
  cbn [app pick_loop get bind]. rewrite market_has_key_get, Hk. now apply IH.
Qed.

Lemma pick_loop_find (ms : list json) (key : string) :
  forallb is_object ms = true ->
  pick_loop ms key = Ok (default JNull (List.find (market_has_key key) ms)).
Proof.
  induction ms as [|m ms IH]; [reflexivity|].
  cbn [forallb]. intros [Hm Hms]%andb_prop.
  destruct m as [| | | | |members]; try discriminate.
  cbn [pick_loop get bind List.find]. rewrite market_has_key_get.
  destruct (market_has_key key (JObj members)); [reflexivity|now apply IH].
Qed.

(** X7. On a list of market objects [_pick_market] returns the first one
    whose key is the wanted one, and [None] when there is none. *)
Theorem pick_market_first_match (ms : list json) (key : string) :
  forallb is_object ms = true ->
  _pick_market (JArr ms) key
  = Ok (default JNull (List.find (market_has_key key) ms)).
Proof. intros H. unfold _pick_market. cbn [iter bind]. now apply pick_loop_find. Qed.

Lemma pick_market_first_match_witness :
  _pick_market (JArr [Samples.market_h2h; Samples.market_totals]) "totals"
  = Ok Samples.market_totals
  /\ _pick_market (JArr [Samples.market_h2h; Samples.market_totals]) "spreads"
     = Ok JNull.
Proof.
  split.
  - apply (pick_market_first_match
             [Samples.market_h2h; Samples.market_totals] "totals").
    reflexivity.
  - apply (pick_market_first_match
             [Samples.market_h2h; Samples.market_totals] "spreads").
    reflexivity.
Defined.

(** X8. [_pick_market] raises on a [markets] value that is not iterable,
    and on an element that is not an object met before a match; once a
    market matches, what follows it in the list is not looked at. *)
Theorem pick_market_failures (key : string) :
  (forall markets : json,
     is_scalar markets = true -> _pick_market markets key = Raise TypeError)
  /\ (forall (pre post : list json) (m : json),
        forallb is_object pre = true ->
        existsb (market_has_key key) pre = false ->
        (is_object m = false ->
         _pick_market (JArr (pre ++ m :: post)) key = Raise AttributeError)
        /\ (market_has_key key m = true ->
            _pick_market (JArr (pre ++ m :: post)) key = Ok m)).
Proof.
  split.
  - intros markets H. destruct markets; try discriminate; reflexivity.
  - intros pre post m Hpre Hno. unfold _pick_market. cbn [iter bind].
    rewrite (pick_loop_skip pre (m :: post) key Hpre Hno). split.
    + intros Hm. cbn [pick_loop]. now rewrite (get_not_object m "key" JNull Hm).
    + intros Hk. destruct m as [| | | | |members]; try discriminate.
      cbn [pick_loop get bind]. now rewrite market_has_key_get, Hk.
Qed.

Lemma pick_market_failures_witness :
  _pick_market (JArr [Samples.market_totals; JNum (NInt 5)]) "h2h"
  = Raise AttributeError
  /\ _pick_market (JArr [Samples.market_totals; JNum (NInt 5)]) "totals"
     = Ok Samples.market_totals.
Proof.
  destruct (pick_market_failures "h2h") as [_ Hh].
  destruct (pick_market_failures "totals") as [_ Ht]. split.
  - apply (Hh [Samples.market_totals] [] (JNum (NInt 5))); reflexivity.
  - apply (Ht [] [JNum (NInt 5)] Samples.market_totals); reflexivity.
Defined.

(** *** The formatters on well-formed markets *)

Lemma h2h_parts_objects (py_repr : json -> string) (outs : list json) :
  forallb is_object outs = true ->
  h2h_parts py_repr outs
  = Ok (List.map (h2h_text py_repr)
          (List.filter (has_keys ["name"; "price"]) outs)).
Proof.
  induction outs as [|o outs IH]; [reflexivity|].
  cbn [forallb]. intros [Ho Houts]%andb_prop.
  destruct o as [| | | | |members]; try discriminate.
  cbn [h2h_parts contains getitem List.filter has_keys forallb].
  rewrite (IH Houts).
  destruct (assoc "name" members) as [n|] eqn:En,
           (assoc "price" members) as [p|] eqn:Ep; cbn; try reflexivity.
  unfold h2h_text, field. now rewrite En, Ep.
Qed.

Lemma npp_parts_objects (py_repr : json -> string)
    (render : string -> string -> string -> string) (outs : list json) :
  forallb is_object outs = true ->
  npp_parts py_repr render outs
  = Ok (List.map (npp_text py_repr render)
          (List.filter (has_keys ["name"; "point"; "price"]) outs)).
Proof.
  induction outs as [|o outs IH]; [reflexivity|].
  cbn [forallb]. intros [Ho Houts]%andb_prop.
  destruct o as [| | | | |members]; try discriminate.
  cbn [npp_parts getitem List.filter has_keys forallb].
  unfold has_name_point_price. cbn [contains bind].
  rewrite (IH Houts).
  destruct (assoc "name" members) as [n|] eqn:Hn;
    destruct (assoc "point" members) as [q|] eqn:Hq;
    destruct (assoc "price" members) as [p|] eqn:Hp; cbn; try reflexivity.
  unfold npp_text, field. now rewrite Hn, Hq, Hp.
Qed.

(** X9. For a market object whose outcomes are a list of objects, each
    column is the texts of the outcomes that have all the keys the column
    needs, in order, joined by [" / "]; the other outcomes are skipped. *)
Theorem format_well_formed_market (py_repr : json -> string)
    (members : list (string * json)) (outs : list json) :
  object_outcomes members outs ->
  _format_h2h py_repr (JObj members)
  = Ok (PyStr.join " / "
          (List.map (h2h_text py_repr)
             (List.filter (has_keys ["name"; "price"]) outs)))
  /\ _format_spreads py_repr (JObj members)
     = Ok (PyStr.join " / "
             (List.map (npp_text py_repr render_spread)
                (List.filter (has_keys ["name"; "point"; "price"]) outs)))
  /\ _format_totals py_repr (JObj members)
     = Ok (PyStr.join " / "
             (List.map (npp_text py_repr render_total)
                (List.filter (has_keys ["name"; "point"; "price"]) outs))).
Proof.
  intros [Hout Hobj].
  unfold _format_h2h, _format_spreads, _format_totals, format_h2h_body,
    format_npp_body.
  cbn [get bind]. rewrite Hout. cbn [default from_option id iter bind].
  rewrite (h2h_parts_objects py_repr outs Hobj),
    !(npp_parts_objects py_repr _ outs Hobj).
  repeat split.
Qed.

Lemma format_well_formed_market_witness :
  _format_h2h Samples.repr_sample Samples.market_h2h
  = Ok "Lions: 2 / Swans: 3"
  /\ _format_spreads Samples.repr_sample Samples.market_h2h = Ok ""
  /\ _format_totals Samples.repr_sample Samples.market_h2h = Ok "".
Proof.
  apply (format_well_formed_market Samples.repr_sample
           [ ("key", JStr "h2h");
             ("outcomes",
              JArr [ Samples.outcome "Lions" 2;
                     JObj [("name", JStr "Draw")];
                     Samples.outcome "Swans" 3 ]) ]
           [ Samples.outcome "Lions" 2;
             JObj [("name", JStr "Draw")];
             Samples.outcome "Swans" 3 ]).
  split; reflexivity.
Defined.

Lemma nonempty_length (s : string) :
  0 < String.length s -> PyStr.nonempty s = true.
Proof. destruct s; simpl; [lia|reflexivity]. Qed.

Lemma join_empty_iff (sep : string) (parts : list string) :
  Forall (fun p => PyStr.nonempty p = true) parts ->
  PyStr.join sep parts = "" <-> parts = [].
Proof.
  intros Hne. split; [|now intros ->].
  destruct parts as [|p rest]; [reflexivity|]. intros E. exfalso.
  inversion Hne as [|? ? Hp _]; subst.
  apply (f_equal String.length) in E.
  destruct p as [|a p]; [discriminate|].
  destruct rest; cbn [PyStr.join] in E; [discriminate|].
  rewrite length_app in E. discriminate.
Qed.

Lemma h2h_text_nonempty (py_repr : json -> string) (o : json) :
  PyStr.nonempty (h2h_text py_repr o) = true.
Proof.
  apply nonempty_length. unfold h2h_text. rewrite !length_app.
  change (String.length ": ") with 2. lia.
Qed.

Lemma npp_text_nonempty (py_repr : json -> string) (o : json) :
  PyStr.nonempty (npp_text py_repr render_spread o) = true
  /\ PyStr.nonempty (npp_text py_repr render_total o) = true.
Proof.
  split; apply nonempty_length; unfold npp_text, render_spread, render_total;
    rewrite !length_app.
  - change (String.length "(") with 1. lia.
  - change (String.length " ") with 1. lia.
Qed.

(** X10. For a market object whose outcomes are a list of objects, a
    column is empty exactly when no outcome has all the keys the column
    needs. *)
Theorem empty_column_iff_no_outcome (py_repr : json -> string)
    (members : list (string * json)) (outs : list json) :
  object_outcomes members outs ->
  (_format_h2h py_repr (JObj members) = Ok ""
   <-> List.filter (has_keys ["name"; "price"]) outs = [])
  /\ (_format_spreads py_repr (JObj members) = Ok ""
      <-> List.filter (has_keys ["name"; "point"; "price"]) outs = [])
  /\ (_format_totals py_repr (JObj members) = Ok ""
      <-> List.filter (has_keys ["name"; "point"; "price"]) outs = []).
Proof.
  intros Hwf.
  destruct (format_well_formed_market py_repr members outs Hwf)
    as (-> & -> & ->).
  assert (Hinj : forall a b : string, Ok a = Ok b <-> a = b)
    by (intros a b; split; [now intros [= ->]|now intros ->]).
  rewrite !Hinj, !join_empty_iff.
  - repeat split; intros H; try (now rewrite H);
      now apply map_eq_nil in H.
  - apply Forall_forall. intros t (o & -> & _)%list_elem_of_fmap.
    apply npp_text_nonempty.
  - apply Forall_forall. intros t (o & -> & _)%list_elem_of_fmap.
    apply npp_text_nonempty.
  - apply Forall_forall. intros t (o & -> & _)%list_elem_of_fmap.
    apply h2h_text_nonempty.
Qed.

Lemma empty_column_iff_no_outcome_witness :
  _format_spreads Samples.repr_sample Samples.market_h2h = Ok ""
  <-> List.filter (has_keys ["name"; "point"; "price"])
        [ Samples.outcome "Lions" 2;
          JObj [("name", JStr "Draw")];
          Samples.outcome "Swans" 3 ] = [].
Proof.
  apply (empty_column_iff_no_outcome Samples.repr_sample
           [ ("key", JStr "h2h");
             ("outcomes",
              JArr [ Samples.outcome "Lions" 2;
                     JObj [("name", JStr "Draw")];
                     Samples.outcome "Swans" 3 ]) ]).
  split; reflexivity.
Defined.

(** *** The whole request *)

Lemma traverse_raise {A B : Type} (f : A -> result B) (l : list A)
    (x : A) (e : exn) :
  x ∈ l -> f x = Raise e -> exists e', traverse f l = Raise e'.
Proof.
  intros Hx Hf. induction l as [|y l IH]; [now apply elem_of_nil in Hx|].
  cbn [traverse]. apply elem_of_cons in Hx as [<-|Hx].
  - rewrite Hf. cbn [bind]. eauto.
  - destruct (f y); cbn [bind]; [|eauto].
    destruct (IH Hx) as [e' ->]. cbn [bind]. eauto.
Qed.

Lemma build_row_raises (py_repr : json -> string) (label start : string)
    (bm : UpstreamBookmaker) :
  pick_raises (default (JArr []) (bm_markets bm)) ->
  exists e, build_row py_repr label start bm = Raise e.
Proof.
  intros (key & e & Hkey & Hraise). unfold build_row.
  set (markets := default (JArr []) (bm_markets bm)) in *.
  destruct (_pick_market markets "h2h") as [m1|] eqn:E1; cbn [bind]; [|eauto].
  destruct (try_except_returns (format_h2h_body py_repr m1) "") as [s1 F1].
  unfold _format_h2h. rewrite F1. cbn [bind].
  destruct (_pick_market markets "spreads") as [m2|] eqn:E2; cbn [bind];
    [|eauto].
  destruct (try_except_returns
              (format_npp_body py_repr render_spread m2) "") as [s2 F2].
  unfold _format_spreads. rewrite F2. cbn [bind].
  destruct (_pick_market markets "totals") as [m3|] eqn:E3; cbn [bind];
    [|eauto].
  exfalso.
  repeat (apply elem_of_cons in Hkey as [->|Hkey]; [congruence|]).
  now apply elem_of_nil in Hkey.
Qed.

(** X11. When the upstream answers 200 and some bookmaker entry of some
    event has a [markets] value on which a market lookup raises, the
    handler raises: no table is returned for any event. *)
Theorem bad_markets_fail_request (py_repr : json -> string)
    (r : UpstreamResponse) (events : list UpstreamEvent)
    (ev : UpstreamEvent) (bm : UpstreamBookmaker) :
  up_status_code r = 200%Z ->
  up_json r = Ok events ->
  ev ∈ events ->
  bm ∈ default [] (ev_bookmakers ev) ->
  pick_raises (default (JArr []) (bm_markets bm)) ->
  exists e, odds_table py_repr r = Raise e.
Proof.
  intros Hst Hjson Hev Hbm Hbad. unfold odds_table.
  rewrite Hst, Hjson. cbn [Z.eqb Pos.eqb negb bind].
  destruct (build_row_raises py_repr (match_label_of ev)
              (default "" (ev_commence_time ev)) bm Hbad) as [e1 He1].
  destruct (traverse_raise _ _ bm e1 Hbm He1) as [e2 He2].
  assert (Hm : build_match py_repr ev = Raise e2).
  { unfold build_match, build_rows. now rewrite He2. }
  destruct (traverse_raise _ _ ev e2 Hev Hm) as [e3 ->]. cbn [bind]. eauto.
Qed.

Lemma bad_markets_fail_request_witness :
  exists e, odds_table Samples.repr_sample Samples.upstream_null_markets = Raise e.
Proof.
  eapply (bad_markets_fail_request Samples.repr_sample
            Samples.upstream_null_markets).
  - reflexivity.
  - reflexivity.
  - apply list_elem_of_here.
  - apply list_elem_of_further, list_elem_of_here.
  - exists "h2h", TypeError. split; [apply list_elem_of_here|reflexivity].
Defined.

Lemma build_row_fields (py_repr : json -> string) (label start : string)
    (bm : UpstreamBookmaker) (row : TableRow) :
  build_row py_repr label start bm = Ok row ->
  row_match row = label /\ row_start row = start
  /\ row_bookmaker row
     = Some (Bookmaker.meta_name
               (Bookmaker.get_bookmaker_meta (bm_key bm) (bm_title bm)))
  /\ row_bookmaker_url row
     = Bookmaker.meta_url
         (Bookmaker.get_bookmaker_meta (bm_key bm) (bm_title bm)).
Proof.
  unfold build_row.
  repeat match goal with
         | |- context [bind ?c _] => destruct c; cbn [bind]; [|discriminate]
         end.
  intros [= <-]. repeat split.
Qed.

Lemma build_match_of_event (py_repr : json -> string) (ev : UpstreamEvent)
    (m : MatchGroup) :
  build_match py_repr ev = Ok m -> match_of_event ev m.
Proof.
  unfold build_match. destruct (build_rows py_repr ev) as [rows|] eqn:Hrows;
    cbn [bind]; [|discriminate].
  intros [= <-]. unfold match_of_event. cbn [m_id m_match m_start m_rows].
  unfold build_rows in Hrows. apply traverse_inv in Hrows.
  repeat (split; [reflexivity|]). exists rows. split.
  - eapply Forall2_impl; [exact Hrows|]. intros bm row.
    apply build_row_fields.
  - apply PySortFacts.sort_by_perm.
Qed.

(** X12. Every response the handler returns carries the upstream status
    code. For a status other than 200 it is the error content; for 200 it
    is the table with the fixed columns and one element per upstream
    event, in order, with the event's id, label and start, and rows that
    are, up to their order, exactly one row per bookmaker entry of the
    event, each row repeating the label and start and carrying the name
    and url resolved for its entry. *)
Theorem response_mirrors_upstream (py_repr : json -> string)
    (r : UpstreamResponse) (resp : JSONResponse) :
  odds_table py_repr r = Ok resp ->
  status_code resp = up_status_code r
  /\ ((up_status_code r <> 200%Z /\ content resp = ErrorContent (up_text r))
      \/ (up_status_code r = 200%Z
          /\ exists events matches,
               up_json r = Ok events
               /\ content resp = TableContent columns matches
               /\ Forall2 match_of_event events matches)).
Proof.
  unfold odds_table. destruct (Z.eqb_spec (up_status_code r) 200) as [Hst|Hst];
    cbn [negb].
  - destruct (up_json r) as [events|]; cbn [bind]; [|discriminate].
    destruct (traverse (build_match py_repr) events) as [ms|] eqn:Hms;
      cbn [bind]; [|discriminate].
    intros [= <-]. split; [now rewrite Hst|]. right. split; [assumption|].
    exists events, ms. split; [reflexivity|]. split; [reflexivity|].
    apply traverse_inv in Hms. eapply Forall2_impl; [exact Hms|].
    intros ev m. apply build_match_of_event.
  - intros [= <-]. split; [reflexivity|]. left. now split.
Qed.

Lemma response_mirrors_upstream_witness :
  exists resp events matches,
    odds_table Samples.repr_sample Samples.upstream_200 = Ok resp
    /\ status_code resp = 200%Z
    /\ up_json Samples.upstream_200 = Ok events
    /\ content resp = TableContent columns matches
    /\ List.map (fun m => List.map row_bookmaker (m_rows m)) matches
       = [[Some "betr"; Some "Neds"; Some "TAB"; Some "TAB"]]
    /\ Forall2 match_of_event events matches.
Proof.
  destruct (response_mirrors_upstream Samples.repr_sample Samples.upstream_200
              _ eq_refl) as [Hst [[Hno _]|(_ & events & matches & Hj & Hc & HF)]].
  - exfalso. apply Hno. reflexivity.
  - eexists. exists events, matches.
    split; [reflexivity|]. split; [exact Hst|]. split; [exact Hj|].
    split; [exact Hc|]. split; [|exact HF].
    vm_compute in Hc. now injection Hc as <-.
Defined.

End OddsTableMore.

(** ** main.py, continued *)

Module MainMore.
Import PyNum PyNumFacts FloatOrder Main MainSpec EventsSpec MainProps.

(** *** Grouping the rows of the event list *)

Lemma has_event_keys (eid : string) (d : list (string * Event)) :
  has_event eid d = true <-> eid ∈ List.map fst d.
Proof.
  induction d as [|[k e] d IH]; simpl.
  - split; [discriminate|intros H; now apply elem_of_nil in H].
  - rewrite orb_true_iff, IH, elem_of_cons, String.eqb_eq.
    split; intros [H|H]; auto.
Qed.

Lemma append_odds_keys (eid : string) (bo : BookmakerOdds)
    (d : list (string * Event)) :
  List.map fst (append_odds eid bo d) = List.map fst d.
Proof.
  induction d as [|[k e] d IH]; simpl; [reflexivity|].
  destruct (String.eqb k eid); simpl; [reflexivity|now rewrite IH].
Qed.

Lemma append_odds_elem (eid : string) (bo : BookmakerOdds)
    (d : list (string * Event)) (k : string) (e : Event) :
  NoDup (List.map fst d) ->
  (k, e) ∈ append_odds eid bo d ->
  (k <> eid /\ (k, e) ∈ d)
  \/ (k = eid /\ exists e0, (k, e0) ∈ d /\ e = with_bookmaker e0 bo).
Proof.
  induction d as [|[k0 e0] d IH]; simpl; intros Hnd Hin.
  - now apply elem_of_nil in Hin.
  - apply NoDup_cons in Hnd as [Hk0 Hnd].
    destruct (String.eqb_spec k0 eid) as [->|Hne].
    + apply elem_of_cons in Hin as [[= -> ->]|Hin].
      * right. split; [reflexivity|]. exists e0.
        split; [apply list_elem_of_here|reflexivity].
      * left. split; [|now apply list_elem_of_further].
        intros ->. apply Hk0.
        apply list_elem_of_fmap. now exists (eid, e).
    + apply elem_of_cons in Hin as [[= -> ->]|Hin].
      * left. split; [assumption|apply list_elem_of_here].
      * destruct (IH Hnd Hin) as [[Hk He]|(Hk & e1 & He1 & ->)].
        -- left. split; [assumption|now apply list_elem_of_further].
        -- right. split; [assumption|]. exists e1.
           split; [now apply list_elem_of_further|reflexivity].
Qed.

Lemma rows_of_snoc (k : string) (p : list SportEventRow) (r : SportEventRow) :
  rows_of k (p ++ [r])
  = (rows_of k p
     ++ if String.eqb (event_id (se_row r)) k then [r] else [])%list.
Proof.
  unfold rows_of. rewrite List.filter_app. simpl.
  now destruct (String.eqb (event_id (se_row r)) k).
Qed.

Lemma event_of_rows_snoc (sport : string) (g : list SportEventRow)
    (r : SportEventRow) (e : Event) :
  event_of_rows sport g = Some e ->
  event_of_rows sport (g ++ [r])
  = Some (with_bookmaker e (bookmaker_odds_of (se_row r))).
Proof.
  destruct g as [|first rest]; [discriminate|]. intros [= <-].
  unfold with_bookmaker. simpl. now rewrite List.map_app.
Qed.

Lemma events_step_inv (sport : string) (p : list SportEventRow)
    (d : list (string * Event)) (r : SportEventRow) :
  dict_inv sport p d -> dict_inv sport (p ++ [r]) (events_step sport d r).
Proof.
  intros (Hnd & Hcov & Hent). unfold events_step.
  set (eid := event_id (se_row r)). set (bo := bookmaker_odds_of (se_row r)).
  set (fresh := {| ev_event_id := eid; ev_sport_key := sport;
                   ev_home_team := home_team (se_row r);
                   ev_away_team := away_team (se_row r);
                   ev_commence_time := commence_time (se_row r);
                   ev_bookmakers := [];
                   ev_is_live := negb (se_is_live r =? 0)%Z |}).
  destruct (has_event eid d) eqn:Hhas.
  - split; [|split].
    + now rewrite append_odds_keys.
    + intros r' [Hr'|Hr']%elem_of_app; apply has_event_keys;
        rewrite append_odds_keys; apply has_event_keys.
      * now apply Hcov.
      * apply list_elem_of_singleton in Hr' as ->. exact Hhas.
    + intros k e Hin.
      destruct (append_odds_elem _ _ _ _ _ Hnd Hin)
        as [[Hk He]|(-> & e0 & He0 & ->)]; rewrite rows_of_snoc.
      * fold eid. destruct (String.eqb_spec eid k) as [E|_]; [congruence|].
        rewrite app_nil_r. now apply Hent.
      * fold eid. rewrite String.eqb_refl.
        now apply event_of_rows_snoc, Hent.
  - assert (Hnew : eid ∉ List.map fst d).
    { intros H%has_event_keys. congruence. }
    assert (Hnd' : NoDup (List.map fst (d ++ [(eid, fresh)]))).
    { rewrite List.map_app. apply NoDup_app. split; [assumption|]. split.
      - intros x Hx [<-|[]]%list_elem_of_In. now apply Hnew.
      - apply NoDup_singleton. }
    assert (Hnone : rows_of eid p = []).
    { apply filter_none. intros r' Hr'. apply String.eqb_neq. intros E.
      apply Hnew, has_event_keys. rewrite <- E. now apply Hcov. }
    split; [|split].
    + now rewrite append_odds_keys.
    + intros r' Hr'. apply has_event_keys. rewrite append_odds_keys.
      rewrite List.map_app. apply elem_of_app.
      apply elem_of_app in Hr' as [Hr'|Hr'].
      * left. now apply has_event_keys, Hcov.
      * right. apply list_elem_of_singleton in Hr' as ->.
        apply list_elem_of_here.
    + intros k e Hin.
      destruct (append_odds_elem _ _ _ _ _ Hnd' Hin)
        as [[Hk He]|(-> & e0 & He0 & ->)]; rewrite rows_of_snoc; fold eid.
      * destruct (String.eqb_spec eid k) as [E|_]; [congruence|].
        rewrite app_nil_r. apply Hent.
        apply elem_of_app in He as [He|He]; [assumption|].
        apply list_elem_of_singleton in He. congruence.
      * rewrite String.eqb_refl, Hnone.
        apply elem_of_app in He0 as [He0|He0].
        -- exfalso. apply Hnew. apply list_elem_of_fmap. now exists (eid, e0).
        -- apply list_elem_of_singleton in He0 as [= ->]. reflexivity.
Qed.

Lemma fold_events_inv (sport : string) (rows p : list SportEventRow)
    (d : list (string * Event)) :
  dict_inv sport p d ->
  dict_inv sport (p ++ rows) (fold_left (events_step sport) rows d).
Proof.
  revert p d. induction rows as [|r rows IH]; intros p d Hinv; simpl.
  - now rewrite app_nil_r.
  - replace (p ++ r :: rows)%list with ((p ++ [r]) ++ rows)%list
      by now rewrite <- app_assoc.
    apply IH, events_step_inv, Hinv.
Qed.

Lemma events_dict_inv (sport : string) (rows : list SportEventRow) :
  dict_inv sport rows (fold_left (events_step sport) rows []).
Proof.
  apply (fold_events_inv sport rows [] []). split; [constructor|].
  split; [intros r Hr; now apply elem_of_nil in Hr|].
  intros k e H. now apply elem_of_nil in H.
Qed.

Lemma get_sport_events_eq (sport : string) (rows : list SportEventRow) :
  get_sport_events sport rows
  = Return (PySort.sort_by_key Z.leb ev_commence_time
              (List.map snd (fold_left (events_step sport) rows []))).
Proof. destruct rows; reflexivity. Qed.

Lemma event_of_rows_id (sport k : string) (rows : list SportEventRow)
    (e : Event) :
  event_of_rows sport (rows_of k rows) = Some e ->
  ev_event_id e = k /\ exists r, r ∈ rows /\ event_id (se_row r) = k.
Proof.
  destruct (rows_of k rows) as [|first rest] eqn:Hg; [discriminate|].
  intros [= <-]. cbn [ev_event_id].
  assert (Hin : In first (rows_of k rows)) by (rewrite Hg; now left).
  apply filter_In in Hin as [Hin Heq%String.eqb_eq].
  split; [assumption|]. exists first. split; [now apply list_elem_of_In|assumption].
Qed.

Lemma dict_ids (sport : string) (rows : list SportEventRow)
    (d : list (string * Event)) :
  dict_inv sport rows d -> List.map ev_event_id (List.map snd d) = List.map fst d.
Proof.
  intros (_ & _ & Hent). rewrite List.map_map.
  apply List.map_ext_in. intros [k e] Hin%list_elem_of_In. cbn [fst snd].
  now apply Hent, event_of_rows_id in Hin as [H _].
Qed.

(** X13. The event list has one event per event id of the fetched rows:
    the ids of the events are pairwise distinct, and they are exactly the
    ids that occur in the rows. *)
Theorem one_event_per_event_id (sport : string) (rows : list SportEventRow)
    (events : list Event) :
  get_sport_events sport rows = Return events ->
  NoDup (List.map ev_event_id events)
  /\ forall id : string,
       id ∈ List.map ev_event_id events
       <-> exists r, r ∈ rows /\ event_id (se_row r) = id.
Proof.
  rewrite get_sport_events_eq. intros [= <-].
  pose proof (events_dict_inv sport rows) as Hinv.
  pose proof (dict_ids _ _ _ Hinv) as Hids.
  set (d := fold_left (events_step sport) rows []) in *.
  assert (Hperm : List.map ev_event_id
                    (PySort.sort_by_key Z.leb ev_commence_time (List.map snd d))
                  ≡ₚ List.map fst d).
  { rewrite <- Hids. apply Permutation_map, PySortFacts.sort_by_perm. }
  destruct Hinv as (Hnd & Hcov & Hent). split.
  - now rewrite Hperm.
  - intros id. rewrite Hperm. split.
    + intros ([k e] & -> & Hin)%list_elem_of_fmap.
      now apply Hent, event_of_rows_id in Hin as [_ H].
    + intros (r & Hr & <-). now apply has_event_keys, Hcov.
Qed.

Lemma one_event_per_event_id_witness :
  exists events,
    get_sport_events "aussierules_afl" Samples.event_rows_two = Return events
    /\ NoDup (List.map ev_event_id events)
    /\ forall id : string,
         id ∈ List.map ev_event_id events
         <-> exists r, r ∈ Samples.event_rows_two /\ event_id (se_row r) = id.
Proof.
  eexists. split; [reflexivity|].
  apply (one_event_per_event_id "aussierules_afl" Samples.event_rows_two).
  reflexivity.
Defined.

(** X14. Each event of the list is built from the fetched rows of its id,
    in fetched order: the first of them gives the teams, the commence time
    and the live flag, later rows do not overwrite them, and [bookmakers]
    has one entry per row, in the order of the rows. *)
Theorem event_is_group_of_its_rows (sport : string)
    (rows : list SportEventRow) (events : list Event) (ev : Event) :
  get_sport_events sport rows = Return events ->
  ev ∈ events ->
  event_of_rows sport (rows_of (ev_event_id ev) rows) = Some ev.
Proof.
  rewrite get_sport_events_eq. intros [= <-] Hev.
  unfold PySort.sort_by_key in Hev. apply PySortFacts.sort_by_elem_of in Hev.
  apply list_elem_of_fmap in Hev as ([k e] & -> & Hin).
  destruct (events_dict_inv sport rows) as (_ & _ & Hent).
  specialize (Hent k e Hin). cbn [snd].
  now destruct (event_of_rows_id _ _ _ _ Hent) as [-> _].
Qed.

Lemma event_is_group_of_its_rows_witness :
  event_of_rows "aussierules_afl"
    (rows_of "E1" Samples.event_rows_two)
  = Some {| ev_event_id := "E1"; ev_sport_key := "aussierules_afl";
            ev_home_team := Some "Lions"; ev_away_team := Some "Swans";
            ev_commence_time := 7000;
            ev_bookmakers :=
              [ bookmaker_odds_of
                  (Samples.row_of_event "E1" "a" 7000 (Samples.dec 210 (-2)));
                bookmaker_odds_of (Samples.row_of_event "E1" "b" 7000 None) ];
            ev_is_live := false |}.
Proof.
  eapply (event_is_group_of_its_rows "aussierules_afl" Samples.event_rows_two
            _ {| ev_event_id := "E1"; ev_sport_key := "aussierules_afl";
                 ev_home_team := Some "Lions"; ev_away_team := Some "Swans";
                 ev_commence_time := 7000;
                 ev_bookmakers :=
                   [ bookmaker_odds_of
                       (Samples.row_of_event "E1" "a" 7000 (Samples.dec 210 (-2)));
                     bookmaker_odds_of (Samples.row_of_event "E1" "b" 7000 None) ];
                 ev_is_live := false |}).
  - reflexivity.
  - vm_compute. apply list_elem_of_further, list_elem_of_here.
Defined.

(** X15. The events of the list are in ascending order of commence
    time. *)
Theorem events_sorted_by_commence_time (sport : string)
    (rows : list SportEventRow) (events : list Event) :
  get_sport_events sport rows = Return events ->
  StronglySorted commence_le events.
Proof.
  rewrite get_sport_events_eq. intros [= <-]. unfold PySort.sort_by_key.
  eapply PySortFacts.StronglySorted_weaken;
    [|apply PySortFacts.sort_by_StronglySorted].
  - intros a b H. unfold PySort.le_rel in H. now apply Z.leb_le in H.
  - intros a b H. apply Z.leb_le. apply Z.leb_gt in H. lia.
  - intros a b c H1%Z.leb_le H2%Z.leb_le. apply Z.leb_le. lia.
Qed.

Lemma events_sorted_by_commence_time_witness :
  exists events,
    get_sport_events "aussierules_afl" Samples.event_rows_two = Return events
    /\ List.map ev_event_id events = ["E2"; "E1"]
    /\ StronglySorted commence_le events.
Proof.
  eexists. split; [reflexivity|]. split; [reflexivity|].
  apply (events_sorted_by_commence_time "aussierules_afl"
           Samples.event_rows_two).
  reflexivity.
Defined.

Lemma append_odds_total (eid : string) (bo : BookmakerOdds)
    (d : list (string * Event)) :
  has_event eid d = true ->
  dict_total (append_odds eid bo d) = S (dict_total d).
Proof.
  unfold dict_total. induction d as [|[k e] d IH]; simpl; [discriminate|].
  destruct (String.eqb k eid); simpl.
  - intros _. rewrite length_app. simpl. lia.
  - intros H. rewrite (IH H). lia.
Qed.

Lemma dict_total_snoc (d : list (string * Event)) (k : string) (e : Event) :
  dict_total (d ++ [(k, e)]) = dict_total d + length (ev_bookmakers e).
Proof.
  unfold dict_total. induction d as [|[k0 e0] d IH]; simpl; [lia|].
  rewrite IH. lia.
Qed.

Lemma events_step_total (sport : string) (d : list (string * Event))
    (r : SportEventRow) :
  dict_total (events_step sport d r) = S (dict_total d).
Proof.
  unfold events_step. destruct (has_event _ d) eqn:Hhas.
  - now apply append_odds_total.
  - rewrite append_odds_total.
    + rewrite dict_total_snoc. simpl. lia.
    + apply has_event_keys. rewrite List.map_app. apply elem_of_app. right.
      apply list_elem_of_here.
Qed.

Lemma fold_events_total (sport : string) (rows : list SportEventRow)
    (d : list (string * Event)) :
  dict_total (fold_left (events_step sport) rows d)
  = dict_total d + length rows.
Proof.
  revert d. induction rows as [|r rows IH]; intros d; simpl; [lia|].
  rewrite IH, events_step_total. lia.
Qed.

Lemma total_bookmakers_perm (l k : list Event) :
  l ≡ₚ k -> total_bookmakers l = total_bookmakers k.
Proof. induction 1; simpl; lia. Qed.

(** X16. Grouping neither drops nor repeats a row: the numbers of
    bookmaker entries of the events add up to the number of fetched
    rows. *)
Theorem events_keep_every_row (sport : string) (rows : list SportEventRow)
    (events : list Event) :
  get_sport_events sport rows = Return events ->
  total_bookmakers events = length rows.
Proof.
  rewrite get_sport_events_eq. intros [= <-]. unfold PySort.sort_by_key.
  rewrite (total_bookmakers_perm _ _ (PySortFacts.sort_by_perm _ _)).
  exact (fold_events_total sport rows []).
Qed.

Lemma events_keep_every_row_witness :
  exists events,
    get_sport_events "aussierules_afl" Samples.event_rows_two = Return events
    /\ total_bookmakers events = 3.
Proof.
  eexists. split; [reflexivity|].
  apply (events_keep_every_row "aussierules_afl" Samples.event_rows_two).
  reflexivity.
Defined.

(** *** The comparison of the event detail *)

Lemma collect_prices_app (sel : Quotes -> option Decimal)
    (rows1 rows2 : list OddsRow) :
  collect_prices sel (rows1 ++ rows2)
  = (collect_prices sel rows1 ++ collect_prices sel rows2)%list.
Proof.
  induction rows1 as [|row rows1 IH]; simpl; [reflexivity|].
  destruct (float_or_none (sel (quotes row))); simpl; now rewrite IH.
Qed.

Lemma get_event_detail_comparison (eid : string) (rows : list OddsRow)
    (d : EventDetail) :
  get_event_detail eid rows = Return d ->
  ed_odds_comparison d
  = {| h2h_home := comparison_of (collect_prices home_h2h_price rows);
       h2h_away := comparison_of (collect_prices away_h2h_price rows) |}.
Proof. destruct rows; [discriminate|]. now intros [= <-]. Qed.

(** X17. A row that quotes neither head-to-head price (each is NULL or
    zero) has no influence on [odds_comparison]: the detail computed with
    the row and the one computed without it carry the same comparison. *)
Theorem unquoted_row_leaves_comparison (eid : string)
    (rows1 rows2 : list OddsRow) (r : OddsRow) (d d' : EventDetail) :
  truthy (home_h2h_price (quotes r)) = false ->
  truthy (away_h2h_price (quotes r)) = false ->
  get_event_detail eid (rows1 ++ rows2) = Return d ->
  get_event_detail eid (rows1 ++ r :: rows2) = Return d' ->
  ed_odds_comparison d' = ed_odds_comparison d.
Proof.
  intros Hh Ha Hd Hd'.
  rewrite (get_event_detail_comparison _ _ _ Hd),
          (get_event_detail_comparison _ _ _ Hd').
  rewrite !collect_prices_app. cbn [collect_prices].
  now rewrite (float_or_none_falsy _ Hh), (float_or_none_falsy _ Ha).
Qed.

Lemma unquoted_row_leaves_comparison_witness :
  exists d d',
    get_event_detail "E1" (firstn 2 Samples.rows_abc) = Return d
    /\ get_event_detail "E1" Samples.rows_abc = Return d'
    /\ ed_odds_comparison d' = ed_odds_comparison d.
Proof.
  eexists. eexists. split; [reflexivity|]. split; [reflexivity|].
  apply (unquoted_row_leaves_comparison "E1" (firstn 2 Samples.rows_abc) []
           (Samples.h2h_row "c" 900 None None));
    reflexivity.
Defined.

Lemma collect_prices_quotes (sel : Quotes -> option Decimal)
    (quote : BookmakerOdds -> option float) (rows : list OddsRow) :
  (forall row, quote (bookmaker_odds_of row) = float_or_none (sel (quotes row))) ->
  (collect_prices sel rows = []
   -> Forall (fun bo => quote bo = None) (List.map bookmaker_odds_of rows))
  /\ forall p, p ∈ collect_prices sel rows ->
       exists bo, bo ∈ List.map bookmaker_odds_of rows /\ quote bo = Some p.
Proof.
  intros Hq. induction rows as [|row rows [IHn IHp]]; simpl.
  - split; [constructor|]. intros p Hp. now apply elem_of_nil in Hp.
  - destruct (float_or_none (sel (quotes row))) as [f|] eqn:Hf; split.
    + discriminate.
    + intros p [->|Hp]%elem_of_cons.
      * exists (bookmaker_odds_of row).
        split; [apply list_elem_of_here|now rewrite Hq].
      * destruct (IHp p Hp) as (bo & Hbo & Hp').
        exists bo. split; [now apply list_elem_of_further|assumption].
    + intros Hnil. constructor; [now rewrite Hq|now apply IHn].
    + intros p Hp. destruct (IHp p Hp) as (bo & Hbo & Hp').
      exists bo. split; [now apply list_elem_of_further|assumption].
Qed.

Lemma comparison_of_quoted (sel : Quotes -> option Decimal)
    (quote : BookmakerOdds -> option float) (rows : list OddsRow) :
  (forall row, quote (bookmaker_odds_of row) = float_or_none (sel (quotes row))) ->
  side_quoted quote (List.map bookmaker_odds_of rows)
    (comparison_of (collect_prices sel rows)).
Proof.
  intros Hq. destruct (collect_prices_quotes sel quote rows Hq) as [Hn Hp].
  destruct (collect_prices sel rows) as [|x l] eqn:E; cbn.
  - now apply Hn.
  - split; apply Hp; [apply py_max1_in|apply py_min1_in].
Qed.

(** X18. The two parts of an event detail agree: a side of
    [odds_comparison] is missing when no entry of [current_odds] has a
    price for it, and otherwise its [best] and its [worst] are each the
    price of some entry of [current_odds]. *)
Theorem comparison_matches_current_odds (eid : string) (rows : list OddsRow)
    (d : EventDetail) :
  get_event_detail eid rows = Return d ->
  side_quoted bo_h2h_home (ed_current_odds d) (h2h_home (ed_odds_comparison d))
  /\ side_quoted bo_h2h_away (ed_current_odds d)
                 (h2h_away (ed_odds_comparison d)).
Proof.
  intros Hd. rewrite (get_event_detail_comparison _ _ _ Hd),
                     (get_event_detail_current_odds _ _ _ Hd).
  cbn [h2h_home h2h_away].
  split; now apply comparison_of_quoted.
Qed.

Lemma comparison_matches_current_odds_witness :
  exists d,
    get_event_detail "E1" Samples.rows_abc = Return d
    /\ side_quoted bo_h2h_home (ed_current_odds d)
                   (h2h_home (ed_odds_comparison d))
    /\ side_quoted bo_h2h_away (ed_current_odds d)
                   (h2h_away (ed_odds_comparison d)).
Proof.
  eexists. split; [reflexivity|].
  apply (comparison_matches_current_odds "E1" Samples.rows_abc).
  reflexivity.
Defined.

(** *** The history of an event *)

Section SortedBy.
Context {A : Type} (le : A -> A -> bool) (R : A -> A -> Prop).
Hypothesis le_true : forall a b, le a b = true -> R a b.
Hypothesis le_false : forall a b, le a b = false -> R b a.
Hypothesis R_trans : forall a b c, R a b -> R b c -> R a c.

Lemma insert_by_sorted_rel (x : A) (l : list A) :
  StronglySorted R l -> StronglySorted R (PySort.insert_by le x l).
Proof.
  induction l as [|y l IH]; simpl; intros Hs.
  - repeat constructor.
  - inversion Hs as [|? ? Hl Hy]; subst. destruct (le x y) eqn:E.
    + constructor; [assumption|]. constructor; [now apply le_true|].
      eapply Forall_impl; [exact Hy|]. intros z Hz.
      eapply R_trans; [apply le_true, E|exact Hz].
    + constructor; [now apply IH|]. apply Forall_forall. intros z Hz.
      rewrite (PySortFacts.insert_by_perm le x l) in Hz.
      apply elem_of_cons in Hz as [->|Hz]; [now apply le_false|].
      revert z Hz. now apply Forall_forall.
Qed.

Lemma sort_by_sorted_rel (l : list A) : StronglySorted R (PySort.sort_by le l).
Proof.
  induction l as [|x l IH]; simpl; [constructor|].
  now apply insert_by_sorted_rel.
Qed.
End SortedBy.

Lemma StronglySorted_map {A B : Type} (f : A -> B) (R : B -> B -> Prop)
    (l : list A) :
  StronglySorted (fun a b => R (f a) (f b)) l ->
  StronglySorted R (List.map f l).
Proof.
  induction 1 as [|a l _ IH Ha]; simpl; constructor; [assumption|].
  clear IH. induction Ha; simpl; constructor; assumption.
Qed.

Lemma history_response_eq (eid : string) (market_type : MarketType)
    (bookmaker home away : option string) (rows : list OddsRow) :
  history_response eid market_type bookmaker home away rows
  = Return {| oh_event_id := eid;
              oh_home_team := home;
              oh_away_team := away;
              oh_market_type := market_type;
              oh_bookmaker := bookmaker;
              oh_history := List.map (history_point market_type) rows |}.
Proof. destruct rows; reflexivity. Qed.

Lemma history_order_snapshot (leb : string -> string -> bool)
    (rows : list OddsRow) :
  StronglySorted snapshot_le (PySort.sort_by (history_order leb) rows).
Proof.
  apply sort_by_sorted_rel; unfold history_order, snapshot_le.
  - intros a b.
    destruct (Z.ltb_spec (snapshot_at a) (snapshot_at b)); [lia|].
    destruct (Z.ltb_spec (snapshot_at b) (snapshot_at a)); [discriminate|lia].
  - intros a b.
    destruct (Z.ltb_spec (snapshot_at a) (snapshot_at b)); [discriminate|lia].
  - intros a b c. lia.
Qed.

Lemma history_where_admitted (now : Z) (eid : string)
    (bookmaker : option string) (hours : Z) (market_type : MarketType)
    (row : OddsRow) :
  history_where now eid bookmaker hours row = true ->
  point_admitted now hours bookmaker market_type
    (history_point market_type row).
Proof.
  unfold history_where, in_window, point_admitted.
  intros [[_ Hw%Z.leb_le]%andb_true_iff Hb]%andb_true_iff.
  cbn [history_point hp_timestamp hp_market_type hp_bookmaker].
  split; [assumption|]. split; [reflexivity|].
  intros Ht. rewrite Ht in Hb. now apply String.eqb_eq.
Qed.

(** X19. For a bookmaker filter that is a plain value, the returned
    history holds exactly one point per stored row of the event that lies
    in the look-back window and, when a bookmaker is given, has that
    bookmaker key (the comparisons of the store read as equality of
    strings); every point is inside the window, carries the requested
    market type and the requested bookmaker, and the points are in
    ascending order of timestamp. *)
Theorem history_points_admitted_and_ordered
    (leb : string -> string -> bool)
    (spliced : list OddsRow -> Z -> string -> string -> Z -> fetched)
    (table : list OddsRow) (now : Z) (eid : string) (market_type : MarketType)
    (bookmaker : option string) (hours : Z) (h : OddsHistory) :
  sql_plain bookmaker = true ->
  get_event_history leb spliced table now eid market_type bookmaker hours
  = Return h ->
  oh_history h
    ≡ₚ List.map (history_point market_type)
         (List.filter (history_where now eid bookmaker hours) table)
  /\ Forall (point_admitted now hours bookmaker market_type) (oh_history h)
  /\ StronglySorted timestamp_le (oh_history h).
Proof.
  intros Hplain Hret. unfold get_event_history in Hret.
  destruct (info_query table eid) as [[home away]|]; [|discriminate].
  unfold history_query in Hret. rewrite Hplain, history_response_eq in Hret.
  injection Hret as <-. cbn [oh_history]. split; [|split].
  - apply Permutation_map, PySortFacts.sort_by_perm.
  - apply Forall_forall.
    intros pt (row & -> & Hrow%PySortFacts.sort_by_elem_of)%list_elem_of_fmap.
    apply list_elem_of_In, filter_In in Hrow as [_ Hw].
    eapply history_where_admitted. exact Hw.
  - apply StronglySorted_map. apply history_order_snapshot.
Qed.

Lemma history_points_admitted_and_ordered_witness :
  exists h,
    get_event_history String.leb (fun _ _ _ _ _ => DriverError "syntax")
      Samples.table_e1 1000 "E1" Mh2h None 72
    = Return h
    /\ List.map hp_timestamp (oh_history h) = [100; 900]%Z
    /\ Forall (point_admitted 1000 72 None Mh2h) (oh_history h)
    /\ StronglySorted timestamp_le (oh_history h).
Proof.
  eexists. split; [reflexivity|]. split; [reflexivity|].
  apply (history_points_admitted_and_ordered String.leb
           (fun _ _ _ _ _ => DriverError "syntax") Samples.table_e1
           1000 "E1" Mh2h None 72);
    reflexivity.
Defined.

Lemma history_where_mono (now : Z) (eid : string) (bookmaker : option string)
    (hours1 hours2 : Z) (row : OddsRow) :
  (hours1 <= hours2)%Z ->
  history_where now eid bookmaker hours1 row = true ->
  history_where now eid bookmaker hours2 row = true.
Proof.
  unfold history_where, in_window. intros Hle.
  intros [[-> Hw%Z.leb_le]%andb_true_iff ->]%andb_true_iff.
  rewrite andb_true_r. cbn [andb]. apply Z.leb_le. lia.
Qed.

(** X20. Looking further back never loses a point: for a plain bookmaker
    filter and [hours1 <= hours2], when the request over [hours1] returns
    a history, the request over [hours2] returns one that contains each of
    its points. *)
Theorem longer_window_keeps_points
    (leb : string -> string -> bool)
    (spliced : list OddsRow -> Z -> string -> string -> Z -> fetched)
    (table : list OddsRow) (now : Z) (eid : string) (market_type : MarketType)
    (bookmaker : option string) (hours1 hours2 : Z) (h1 : OddsHistory) :
  (hours1 <= hours2)%Z ->
  sql_plain bookmaker = true ->
  get_event_history leb spliced table now eid market_type bookmaker hours1
  = Return h1 ->
  exists h2,
    get_event_history leb spliced table now eid market_type bookmaker hours2
    = Return h2
    /\ forall pt, pt ∈ oh_history h1 -> pt ∈ oh_history h2.
Proof.
  intros Hle Hplain Hret. unfold get_event_history in *.
  destruct (info_query table eid) as [[home away]|]; [|discriminate].
  unfold history_query in *. rewrite Hplain, history_response_eq in *.
  injection Hret as <-. eexists. split; [reflexivity|]. cbn [oh_history].
  intros pt (row & -> & Hrow%PySortFacts.sort_by_elem_of)%list_elem_of_fmap.
  apply list_elem_of_fmap. exists row. split; [reflexivity|].
  apply PySortFacts.sort_by_elem_of, list_elem_of_In, filter_In.
  apply list_elem_of_In, filter_In in Hrow as [Hin Hw].
  split; [assumption|]. now apply (history_where_mono _ _ _ hours1).
Qed.

Lemma longer_window_keeps_points_witness :
  exists h1 h2,
    get_event_history String.leb (fun _ _ _ _ _ => DriverError "syntax")
      Samples.table_e1 (900 + 3600) "E1" Mh2h None 1
    = Return h1
    /\ get_event_history String.leb (fun _ _ _ _ _ => DriverError "syntax")
         Samples.table_e1 (900 + 3600) "E1" Mh2h None 2
       = Return h2
    /\ length (oh_history h1) = 1 /\ length (oh_history h2) = 2
    /\ forall pt, pt ∈ oh_history h1 -> pt ∈ oh_history h2.
Proof.
  destruct (longer_window_keeps_points String.leb
              (fun _ _ _ _ _ => DriverError "syntax") Samples.table_e1
              (900 + 3600) "E1" Mh2h None 1 2 _ ltac:(lia) eq_refl eq_refl)
    as (h2 & Hh2 & Hsub).
  eexists. exists h2. split; [reflexivity|]. split; [exact Hh2|].
  split; [reflexivity|]. split; [|exact Hsub].
  vm_compute in Hh2. now injection Hh2 as <-.
Defined.

Lemma info_query_inv (table : list OddsRow) (eid : string) :
  match info_query table eid with
  | None => forall row, row ∈ table -> event_id row <> eid
  | Some (home, away) =>
      exists row, row ∈ table /\ event_id row = eid
                  /\ home = home_team row /\ away = away_team row
  end.
Proof.
  unfold info_query.
  destruct (List.filter _ table) as [|r rs] eqn:E.
  - intros row Hrow Hid. eapply filter_some; [exact Hrow| |exact E].
    now apply String.eqb_eq.
  - assert (Hin : In r (List.filter (fun row => String.eqb (event_id row) eid)
                          table)) by (rewrite E; now left).
    apply filter_In in Hin as [Hin Hid%String.eqb_eq].
    exists r. split; [now apply list_elem_of_In|]. now split.
Qed.

(** X21. The history handler answers 404 only for an unknown event: when
    it raises [HTTPException] with status 404, no stored row carries the
    event id, whatever the bookmaker filter is and whatever the store
    answers to the history query. *)
Theorem history_404_only_unknown_event
    (leb : string -> string -> bool)
    (spliced : list OddsRow -> Z -> string -> string -> Z -> fetched)
    (table : list OddsRow) (now : Z) (eid : string) (market_type : MarketType)
    (bookmaker : option string) (hours : Z) (detail : string) :
  get_event_history leb spliced table now eid market_type bookmaker hours
  = HTTPException 404 detail ->
  forall row, row ∈ table -> event_id row <> eid.
Proof.
  unfold get_event_history. pose proof (info_query_inv table eid) as Hinfo.
  destruct (info_query table eid) as [[home away]|]; [|intros _; exact Hinfo].
  destruct (history_query _ _ _ _ _ _ _) as [rows|message]; cbv beta iota.
  - now rewrite history_response_eq.
  - discriminate.
Qed.

Lemma history_404_only_unknown_event_witness :
  get_event_history String.leb (fun _ _ _ _ _ => DriverError "syntax")
    Samples.table_e1 1000 "E9" Mh2h (Some "it's") 72
  = HTTPException 404 "Event not found"
  /\ Forall (fun row => String.eqb (event_id row) "E9" = false)
            Samples.table_e1.
Proof.
  split; [reflexivity|]. apply Forall_forall. intros row Hrow.
  apply String.eqb_neq.
  apply (history_404_only_unknown_event String.leb
           (fun _ _ _ _ _ => DriverError "syntax") Samples.table_e1
           1000 "E9" Mh2h (Some "it's") 72 "Event not found");
    [reflexivity|exact Hrow].
Defined.

(** X22. A returned history echoes the request and names the teams of the
    event: its event id, market type and bookmaker are the ones asked
    for, every point carries the market type asked for, and the home and
    away team are those of one stored row of the event. This holds for
    every bookmaker filter and every answer of the store. *)
Theorem history_echoes_request
    (leb : string -> string -> bool)
    (spliced : list OddsRow -> Z -> string -> string -> Z -> fetched)
    (table : list OddsRow) (now : Z) (eid : string) (market_type : MarketType)
    (bookmaker : option string) (hours : Z) (h : OddsHistory) :
  get_event_history leb spliced table now eid market_type bookmaker hours
  = Return h ->
  oh_event_id h = eid
  /\ oh_market_type h = market_type
  /\ oh_bookmaker h = bookmaker
  /\ Forall (fun pt => hp_market_type pt = market_type) (oh_history h)
  /\ exists row, row ∈ table /\ event_id row = eid
                 /\ oh_home_team h = home_team row
                 /\ oh_away_team h = away_team row.
Proof.
  unfold get_event_history. pose proof (info_query_inv table eid) as Hinfo.
  destruct (info_query table eid) as [[home away]|]; [|discriminate].
  destruct (history_query _ _ _ _ _ _ _) as [rows|message]; cbv beta iota;
    [|discriminate].
  rewrite history_response_eq. intros [= <-].
  cbn [oh_event_id oh_market_type oh_bookmaker oh_history oh_home_team
       oh_away_team].
  repeat (split; [reflexivity|]). split; [|exact Hinfo].
  apply Forall_forall. now intros pt (row & -> & _)%list_elem_of_fmap.
Qed.

Lemma history_echoes_request_witness :
  exists h,
    get_event_history String.leb (fun _ _ _ _ _ => Rows Samples.rows_abc)
      Samples.table_e1 1000 "E1" Mtotals (Some "it's") 72
    = Return h
    /\ oh_event_id h = "E1"
    /\ oh_market_type h = Mtotals
    /\ oh_bookmaker h = Some "it's"
    /\ Forall (fun pt => hp_market_type pt = Mtotals) (oh_history h)
    /\ exists row, row ∈ Samples.table_e1 /\ event_id row = "E1"
                   /\ oh_home_team h = home_team row
                   /\ oh_away_team h = away_team row.
Proof.
  eexists. split; [reflexivity|].
  apply (history_echoes_request String.leb
           (fun _ _ _ _ _ => Rows Samples.rows_abc) Samples.table_e1
           1000 "E1" Mtotals (Some "it's") 72).
  reflexivity.
Defined.

(** *** The sports menu *)

Lemma sport_names_nonempty (k v : string) :
  sport_names !! k = Some v -> v <> "".
Proof.
  intros H%elem_of_list_to_map_2.
  repeat (apply elem_of_cons in H as [H|H]; [injection H as -> ->; discriminate|]).
  now apply elem_of_nil in H.
Qed.

Lemma get_sports_fold (rows : list SportRow) (acc : list Sport) :
  fold_left
    (fun sports row =>
       (sports ++ [ {| sp_sport_key := sr_sport_key row;
                       sp_sport_name :=
                         default (sr_sport_key row)
                                 (sport_names !! sr_sport_key row);
                       sp_event_count := count_or_zero (sr_event_count row) |} ])%list)
    rows acc
  = (acc ++ List.map
              (fun row =>
                 {| sp_sport_key := sr_sport_key row;
                    sp_sport_name :=
                      default (sr_sport_key row)
                              (sport_names !! sr_sport_key row);
                    sp_event_count := count_or_zero (sr_event_count row) |})
              rows)%list.
Proof.
  revert acc. induction rows as [|row rows IH]; intros acc; simpl.
  - now rewrite app_nil_r.
  - rewrite IH, <- app_assoc. reflexivity.
Qed.

(** X23. The sports menu has one entry per fetched row, in fetched order:
    the entry keeps the sport key, its name is the mapped name of the key
    or else the key itself, so that it is non-empty whenever the key is,
    and a NULL count is reported as 0. *)
Theorem sports_follow_rows (rows : list SportRow) :
  Forall2 sport_of_row rows (get_sports rows).
Proof.
  unfold get_sports. rewrite (get_sports_fold rows []). cbn [app].
  induction rows as [|row rows IH]; simpl; constructor; [|exact IH].
  unfold sport_of_row. cbn [sp_sport_key sp_sport_name sp_event_count].
  split; [reflexivity|]. split; [reflexivity|]. split.
  - destruct (sr_event_count row) as [n|]; cbn; [|reflexivity].
    destruct (Z.eqb_spec n 0); congruence.
  - intros Hkey. destruct (sport_names !! sr_sport_key row) as [v|] eqn:Hv;
      cbn [default from_option id].
    + now apply (sport_names_nonempty _ _ Hv).
    + exact Hkey.
Qed.

End MainMore.
